(** * LureDB search core: a shallow embedding and its properties

    The development follows the three TypeScript sources of the extension:
    - [colorSearchProvider.ts] (class ColorSearchProvider),
    - [lureSearchProvider.ts]  (class LureSearchProvider),
    - [extension.ts]           (buildColorLookup, getColorInfo and the
      lure-code computation inside getLureDetailsHtml).

    Modelling conventions.
    - A JavaScript string whose code units are all below 256 is the Rocq
      string with the same character codes; on that range [toLowerCase] and
      [trim] below are the ECMAScript functions exactly.
    - A JavaScript number is a safe integer (an integer of magnitude
      below 2^53, on which double arithmetic is exact), NaN, or a value the
      model leaves undetermined: an operation whose operand or exact result
      leaves the safe range gives an undetermined value. The years of the
      catalogue are safe integers by type; the number of a variant is a
      safe integer, another number known by its [toString] text, or a
      string.
    - The documents are those that conform to the interfaces [Database]
      and [LureDatabase]: every field has the type declared for it.
    - Objects obtained from JSON.parse and used as dictionaries are finite
      maps of their own properties; reading a key also consults
      Object.prototype, as the language does.
    - A call either returns a value or throws: [completion]. *)

From Stdlib Require Import ZArith Ascii Sorted Permutation.
From stdpp Require Import base option list strings gmap pretty.

Local Open Scope Z_scope.

(** ** JavaScript primitives used by the sources *)

Module JS.

(** *** Completions *)

Inductive error := TypeError.

Inductive completion (A : Type) :=
  | Return (a : A)
  | Throw (e : error).
Arguments Return {A} a.
Arguments Throw {A} e.

(** *** Strings *)

Definition code (c : ascii) : N := N_of_ascii c.

(** WhiteSpace and LineTerminator code points below 256: TAB, LF, VT, FF,
    CR, SPACE and NO-BREAK SPACE. *)
Definition isWhiteSpace (c : ascii) : bool :=
  let n := code c in
  ((9 <=? n) && (n <=? 13) || (n =? 32) || (n =? 160))%N.

(** Unicode simple lower-casing on U+0000..U+00FF: A-Z, and the Latin-1
    capitals U+00C0..U+00DE except the multiplication sign U+00D7. *)
Definition toLowerChar (c : ascii) : ascii :=
  let n := code c in
  if ((65 <=? n) && (n <=? 90)
      || (192 <=? n) && (n <=? 222) && negb (n =? 215))%N
  then ascii_of_N (n + 32)
  else c.

Fixpoint toLowerCase (s : string) : string :=
  match s with
  | EmptyString => EmptyString
  | String c s' => String (toLowerChar c) (toLowerCase s')
  end.

Fixpoint trimStart (s : string) : string :=
  match s with
  | EmptyString => EmptyString
  | String c s' => if isWhiteSpace c then trimStart s' else s
  end.

Fixpoint trimEnd (s : string) : string :=
  match s with
  | EmptyString => EmptyString
  | String c s' =>
      let t := trimEnd s' in
      if isWhiteSpace c && bool_decide (t = EmptyString)
      then EmptyString
      else String c t
  end.

Definition trim (s : string) : string := trimEnd (trimStart s).

(** [startsWith s p] is [s.startsWith(p)]. *)
Fixpoint startsWith (s p : string) : bool :=
  match p, s with
  | EmptyString, _ => true
  | String _ _, EmptyString => false
  | String b p', String a s' => bool_decide (a = b) && startsWith s' p'
  end.

(** [includes s p] is [s.includes(p)]. *)
Fixpoint includes (s p : string) : bool :=
  startsWith s p ||
  match s with
  | EmptyString => false
  | String _ s' => includes s' p
  end.

(** Strict equality [===] of two strings. *)
Definition strictEq (a b : string) : bool := bool_decide (a = b).

(** The regular expression [/^\d+$/]. *)
Definition isDigit (c : ascii) : bool :=
  let n := code c in ((48 <=? n) && (n <=? 57))%N.

Fixpoint allDigits (s : string) : bool :=
  match s with
  | EmptyString => true
  | String c s' => isDigit c && allDigits s'
  end.

Definition test_digits (s : string) : bool :=
  negb (bool_decide (s = EmptyString)) && allDigits s.


(** *** Numbers *)

(** [Number.isSafeInteger]: the integers every one of which is a double,
    and between which sums, products and quotients are rounded to
    themselves whenever they are safe integers again. *)
Definition isSafeInteger (z : Z) : bool :=
  (- (2 ^ 53 - 1) <=? z) && (z <=? 2 ^ 53 - 1).

(** An integer number of the catalogue. *)
Record safeInteger := SafeInteger {
  intValue : Z;
  intSafe : isSafeInteger intValue = true
}.

(** [Num z] is the integer [z]; [Other] stands for a value that the model
    does not determine (it may be a fraction, an infinity, a rounded
    integer beyond the safe range, or anything a longer analysis of a
    literal would give). *)
Inductive number := Num (z : Z) | NaN | Other.

(** The number with the exact value [z], when that is a safe integer. *)
Definition num (z : Z) : number :=
  if isSafeInteger z then Num z else Other.

(** [Math.floor(a / d)] for a positive safe integer [d]: the rounding of
    the quotient of two safe integers never reaches the next integer. *)
Definition floorDiv (a : number) (d : Z) : number :=
  match a with
  | Num z =>
      if isSafeInteger z && (0 <? d) && isSafeInteger d then Num (z / d)
      else Other
  | NaN => NaN
  | Other => Other
  end.

(** [a * d] for a safe integer [d]. *)
Definition mul (a : number) (d : Z) : number :=
  match a with
  | Num z =>
      if isSafeInteger z && isSafeInteger d then num (z * d) else Other
  | NaN => NaN
  | Other => Other
  end.

(** [a + b]. *)
Definition add (a b : number) : number :=
  match a, b with
  | Num x, Num y =>
      if isSafeInteger x && isSafeInteger y then num (x + y) else Other
  | NaN, _ | _, NaN => NaN
  | _, _ => Other
  end.

Definition digitValue (c : ascii) : Z := Z.of_N (code c) - 48.

Fixpoint decimalFrom (acc : Z) (s : string) : Z :=
  match s with
  | EmptyString => acc
  | String c s' => decimalFrom (10 * acc + digitValue c) s'
  end.

(** The value of a string of decimal digits. *)
Definition decimal (s : string) : Z := decimalFrom 0 s.

(** First characters a StrNumericLiteral can have: a digit, a sign, a
    point, or the I of Infinity. *)
Definition startsNumericLiteral (c : ascii) : bool :=
  let n := code c in
  (isDigit c || (n =? 43) || (n =? 45) || (n =? 46) || (n =? 73))%N.

(** [Number(s)] for a string: surrounding white space is ignored, the
    empty string is 0, a run of decimal digits with an optional sign is its
    value when that is a safe integer, and a text that cannot begin a
    numeric literal is NaN. Longer runs of digits (which are rounded),
    a negated zero (which is -0), other literal forms (fraction, exponent,
    radix prefix, Infinity) and texts that merely begin like a literal are
    [Other]. *)
Definition stringToNumber (s : string) : number :=
  match trim s with
  | EmptyString => Num 0
  | String c t' as t =>
      if allDigits t then num (decimal t)
      else if (code c =? 45)%N && test_digits t' then
        if decimal t' =? 0 then Other else num (- decimal t')
      else if (code c =? 43)%N && test_digits t' then num (decimal t')
      else if startsNumericLiteral c then Other
      else NaN
  end.

(** Whether a text is the decimal form of a safe integer, the form that
    [toString] gives for it. *)
Definition safeIntegerText (t : string) : bool :=
  match stringToNumber t with
  | Num z => bool_decide (pretty z = t)
  | _ => false
  end.

(** A number that is not a safe integer (a fraction, or a value of
    magnitude 2^53 or more), known by the text that [toString] gives for
    it: different numbers have different texts, and none has the text of a
    safe integer. *)
Record otherNumber := OtherNumber {
  text : string;
  textOther : safeIntegerText text = false
}.

(** *** Objects used as dictionaries *)

(** Property names every plain object inherits from Object.prototype. The
    inherited values are functions (an accessor for __proto__): all truthy,
    none of them an array. *)
Definition objectPrototypeKeys : list string :=
  [ "constructor"; "__defineGetter__"; "__defineSetter__"; "hasOwnProperty";
    "__lookupGetter__"; "__lookupSetter__"; "isPrototypeOf";
    "propertyIsEnumerable"; "toString"; "valueOf"; "__proto__";
    "toLocaleString" ].

Inductive property (V : Type) :=
  | Own (v : V)
  | Inherited
  | Undefined.
Arguments Own {V} v.
Arguments Inherited {V}.
Arguments Undefined {V}.

(** [o[k]] on an object made by JSON.parse. *)
Definition get {V} (o : gmap string V) (k : string) : property V :=
  match o !! k with
  | Some v => Own v
  | None =>
      if bool_decide (k ∈ objectPrototypeKeys) then Inherited else Undefined
  end.

(** Truthiness of [o?.[k]] when own values are objects or arrays. *)
Definition truthy {V} (p : property V) : bool :=
  match p with Undefined => false | _ => true end.

(** *** Arrays *)

(** [Array.prototype.sort(cmp)]: the sort is stable, and for a consistent
    comparator its result is the unique stable ordering, computed here by
    insertion. A negative result puts the first argument first. *)
Section Sort.
Context {A : Type} (cmp : A -> A -> Z).

Fixpoint insert_sorted (x : A) (l : list A) : list A :=
  match l with
  | [] => [x]
  | y :: l' => if cmp x y <=? 0 then x :: l else y :: insert_sorted x l'
  end.

Definition sort (l : list A) : list A := foldr insert_sorted [] l.

End Sort.

(** The host's collation, [String.prototype.localeCompare] with the default
    locale and options. *)
Class Collator := localeCompare : string -> string -> Z.

End JS.

(** ** The catalogue document

    The value JSON.parse yields for data.json, as typed by the interfaces
    [Database] and [LureDatabase]. The producers are listed in the order
    Object.entries enumerates them; their keys are distinct. *)

Module Database.

Module Color.
Record t := {
  id : string;
  name : string;
  yearIntroduced : option JS.safeInteger;
  yearLastUsed : option JS.safeInteger;
  companyId : option string;
  pre1925Id : option (list string)
}.
End Color.

(** [number: number | string]. *)
Inductive lureNumber :=
  | NumberOf (z : JS.safeInteger)
  | OtherNumberOf (x : JS.otherNumber)
  | StringOf (s : string).

Module Lure.
Record t := {
  name : string;
  number : lureNumber;
  yearIntroduced : option JS.safeInteger;
  yearLastMfg : option JS.safeInteger;
  colors : option (list string);
  rare_colors : option (list string);
  pre1925codes : option (list (list (string * Z)));
  notes : option string
}.
End Lure.

Module Manufacturer.
Record t := {
  id : string;
  name : string;
  colors : option (list Color.t);
  lures : option (list Lure.t)
}.
End Manufacturer.

Record byIdEntry := {
  manufacturerId : string;
  colorName : string;
  companyId : option string
}.

Record indexesT := {
  byId : option (gmap string byIdEntry);
  byCompanyId : option (gmap string (list string))
}.

Record t := {
  manufacturers : option (list (string * Manufacturer.t));
  indexes : option indexesT
}.

End Database.

(** What [fs.readFileSync] followed by [JSON.parse] delivers: either call
    may throw, or a document is obtained. A parsed value that is not an
    object (null, a number, ...) behaves in the code below as a document
    with neither [manufacturers] nor [indexes]. *)
Inductive source :=
  | Unreadable
  | Unparseable
  | Parsed (d : Database.t).

(** [l.number.toString()]: a safe integer is written with all its
    decimal digits, another number with the text it is known by. *)
Definition numberToString (n : Database.lureNumber) : string :=
  match n with
  | Database.NumberOf z => pretty (JS.intValue z)
  | Database.OtherNumberOf x => JS.text x
  | Database.StringOf s => s
  end.

(** [Number(l.number)]. *)
Definition toNumber (n : Database.lureNumber) : JS.number :=
  match n with
  | Database.NumberOf z => JS.Num (JS.intValue z)
  | Database.OtherNumberOf _ => JS.Other
  | Database.StringOf s => JS.stringToNumber s
  end.

(** ** The ranking comparator

    Both providers pass the same comparator to [sort]; it only reads the
    two names and the normalised query. *)

Definition compareNames `{JS.Collator} (lowerQuery aName bName : string) : Z :=
  let aExactName := JS.strictEq (JS.toLowerCase aName) lowerQuery in
  let bExactName := JS.strictEq (JS.toLowerCase bName) lowerQuery in
  if aExactName && negb bExactName then -1
  else if negb aExactName && bExactName then 1
  else
    let aStartsWith := JS.startsWith (JS.toLowerCase aName) lowerQuery in
    let bStartsWith := JS.startsWith (JS.toLowerCase bName) lowerQuery in
    if aStartsWith && negb bStartsWith then -1
    else if negb aStartsWith && bStartsWith then 1
    else JS.localeCompare aName bName.

(** ** colorSearchProvider.ts *)

Module ColorSearchProvider.

Record ColorData := {
  id : string;
  name : string;
  yearIntroduced : option JS.safeInteger;
  yearLastUsed : option JS.safeInteger;
  companyId : option string;
  pre1925Id : option (list string);
  manufacturerId : string;
  manufacturerName : string
}.

(** The two private fields of the class. *)
Record t := {
  database : option Database.t;
  colorCache : list ColorData
}.

Definition initial : t := {| database := None; colorCache := [] |}.

Definition cacheEntry (manufacturerId : string)
    (manufacturer : Database.Manufacturer.t) (color : Database.Color.t)
    : ColorData :=
  {| id := Database.Color.id color;
     name := Database.Color.name color;
     yearIntroduced := Database.Color.yearIntroduced color;
     yearLastUsed := Database.Color.yearLastUsed color;
     companyId := Database.Color.companyId color;
     pre1925Id := Database.Color.pre1925Id color;
     manufacturerId := manufacturerId;
     manufacturerName := Database.Manufacturer.name manufacturer |}.

Definition buildColorCache (p : t) : t :=
  match database p ≫= Database.manufacturers with
  | None => p
  | Some ms =>
      {| database := database p;
         colorCache :=
           flat_map
             (fun '(manufacturerId, manufacturer) =>
                match Database.Manufacturer.colors manufacturer with
                | None => []
                | Some colors =>
                    map (cacheEntry manufacturerId manufacturer) colors
                end)
             ms |}
  end.

Definition loadDatabase (src : source) (p : t) : t :=
  match src with
  | Parsed d =>
      buildColorCache {| database := Some d; colorCache := colorCache p |}
  | Unreadable | Unparseable =>
      {| database := None; colorCache := [] |}
  end.

(** [new ColorSearchProvider(dataPath)]. *)
Definition new (src : source) : t := loadDatabase src initial.

Definition reload (src : source) (p : t) : t := loadDatabase src p.

(** The predicate of the "fuzzy search" filter. *)
Definition matches (lowerQuery : string) (color : ColorData) : bool :=
  if JS.includes (JS.toLowerCase (id color)) lowerQuery then true
  else if JS.includes (JS.toLowerCase (name color)) lowerQuery then true
  else if from_option
            (fun s => JS.includes (JS.toLowerCase s) lowerQuery)
            false (companyId color) then true
  else if from_option
            (existsb (fun i => JS.includes (JS.toLowerCase i) lowerQuery))
            false (pre1925Id color) then true
  else if JS.includes (JS.toLowerCase (manufacturerName color)) lowerQuery
  then true
  else false.

Definition compare `{JS.Collator} (lowerQuery : string) (a b : ColorData)
    : Z :=
  compareNames lowerQuery (name a) (name b).

(** The last two statements of [search]: filter, then sort. *)
Definition scan `{JS.Collator} (p : t) (lowerQuery : string)
    : list ColorData :=
  JS.sort (compare lowerQuery)
          (List.filter (matches lowerQuery) (colorCache p)).

(** [this.database?.indexes?.byId?.[lowerQuery]], as a condition. *)
Definition byIdHit (p : t) (lowerQuery : string) : bool :=
  match (database p ≫= Database.indexes) ≫= Database.byId with
  | Some o => JS.truthy (JS.get o lowerQuery)
  | None => false
  end.

(** [this.database?.indexes?.byCompanyId?.[query]]. *)
Definition byCompanyIdEntry (p : t) (query : string)
    : JS.property (list string) :=
  match (database p ≫= Database.indexes) ≫= Database.byCompanyId with
  | Some o => JS.get o query
  | None => JS.Undefined
  end.

(** The constant [exactMatch] of [search], absent when the index gate
    is closed. *)
Definition exactMatch (p : t) (lowerQuery : string) : option ColorData :=
  if byIdHit p lowerQuery
  then List.find
         (fun c => JS.strictEq (JS.toLowerCase (id c)) lowerQuery)
         (colorCache p)
  else None.

(** The constant [companyIdMatches] of [search]: map, then filter out
    the undefined results. *)
Definition companyIdMatches (p : t) (ids : list string) : list ColorData :=
  omap (fun i => List.find (fun c => JS.strictEq (id c) i) (colorCache p))
       ids.

Definition search `{JS.Collator} (p : t) (query : string)
    : JS.completion (list ColorData) :=
  let lowerQuery := JS.trim (JS.toLowerCase query) in
  if JS.strictEq lowerQuery "" then JS.Return []
  else
    match exactMatch p lowerQuery with
    | Some c => JS.Return [c]
    | None =>
        match byCompanyIdEntry p query with
        | JS.Own ids =>
            if 0 <? Z.of_nat (length (companyIdMatches p ids))
            then JS.Return (companyIdMatches p ids)
            else JS.Return (scan p lowerQuery)
        | JS.Inherited =>
            (* the inherited value has no [map] method *)
            JS.Throw JS.TypeError
        | JS.Undefined => JS.Return (scan p lowerQuery)
        end
    end.

(** The condition under which [search] reaches its last statement, the
    sort of the filtered cache. *)
Definition reachesScan (p : t) (query : string) : bool :=
  let lowerQuery := JS.trim (JS.toLowerCase query) in
  negb (JS.strictEq lowerQuery "")
  && negb (bool_decide (is_Some (exactMatch p lowerQuery)))
  && match byCompanyIdEntry p query with
     | JS.Own ids => negb (0 <? Z.of_nat (length (companyIdMatches p ids)))
     | JS.Inherited => false
     | JS.Undefined => true
     end.

Definition getById (p : t) (id' : string) : option ColorData :=
  List.find (fun c => JS.strictEq (id c) id') (colorCache p).

Definition getByCompanyId (p : t) (companyId' : string) : list ColorData :=
  List.filter
    (fun c => from_option (fun s => JS.strictEq s companyId') false
                          (companyId c))
    (colorCache p).

Definition getAllColors (p : t) : list ColorData := colorCache p.

End ColorSearchProvider.

(** ** lureSearchProvider.ts *)

Module LureSearchProvider.

Record LureData := {
  name : string;
  number : Database.lureNumber;
  yearIntroduced : option JS.safeInteger;
  yearLastMfg : option JS.safeInteger;
  colors : option (list string);
  rare_colors : option (list string);
  pre1925codes : option (list (list (string * Z)));
  notes : option string;
  manufacturerId : string;
  manufacturerName : string
}.

Record t := {
  database : option Database.t;
  lureCache : list LureData
}.

Definition initial : t := {| database := None; lureCache := [] |}.

Definition cacheEntry (manufacturerId : string)
    (manufacturer : Database.Manufacturer.t) (lure : Database.Lure.t)
    : LureData :=
  {| name := Database.Lure.name lure;
     number := Database.Lure.number lure;
     yearIntroduced := Database.Lure.yearIntroduced lure;
     yearLastMfg := Database.Lure.yearLastMfg lure;
     colors := Database.Lure.colors lure;
     rare_colors := Database.Lure.rare_colors lure;
     pre1925codes := Database.Lure.pre1925codes lure;
     notes := Database.Lure.notes lure;
     manufacturerId := manufacturerId;
     manufacturerName := Database.Manufacturer.name manufacturer |}.

Definition buildLureCache (p : t) : t :=
  match database p ≫= Database.manufacturers with
  | None => p
  | Some ms =>
      {| database := database p;
         lureCache :=
           flat_map
             (fun '(manufacturerId, manufacturer) =>
                match Database.Manufacturer.lures manufacturer with
                | None | Some [] => []
                | Some lures =>
                    map (cacheEntry manufacturerId manufacturer) lures
                end)
             ms |}
  end.

Definition loadDatabase (src : source) (p : t) : t :=
  match src with
  | Parsed d =>
      buildLureCache {| database := Some d; lureCache := lureCache p |}
  | Unreadable | Unparseable =>
      {| database := None; lureCache := [] |}
  end.

Definition new (src : source) : t := loadDatabase src initial.

Definition reload (src : source) (p : t) : t := loadDatabase src p.

Definition matches (query lowerQuery : string) (lure : LureData) : bool :=
  if JS.includes (JS.toLowerCase (name lure)) lowerQuery then true
  else if JS.includes (numberToString (number lure)) query then true
  else if JS.includes (JS.toLowerCase (manufacturerName lure)) lowerQuery
  then true
  else false.

Definition compare `{JS.Collator} (lowerQuery : string) (a b : LureData)
    : Z :=
  compareNames lowerQuery (name a) (name b).

Definition scan `{JS.Collator} (p : t) (query lowerQuery : string)
    : list LureData :=
  JS.sort (compare lowerQuery)
          (List.filter (matches query lowerQuery) (lureCache p)).

Definition search `{JS.Collator} (p : t) (query : string)
    : JS.completion (list LureData) :=
  let lowerQuery := JS.trim (JS.toLowerCase query) in
  if JS.strictEq lowerQuery "" then JS.Return []
  else
    let numberMatch :=
      List.filter
        (fun l => JS.strictEq (numberToString (number l)) query)
        (lureCache p) in
    if 0 <? Z.of_nat (length numberMatch)
    then JS.Return numberMatch
    else JS.Return (scan p query lowerQuery).

(** The condition under which [search] reaches its last statement. *)
Definition reachesScan (p : t) (query : string) : bool :=
  let lowerQuery := JS.trim (JS.toLowerCase query) in
  negb (JS.strictEq lowerQuery "")
  && negb (0 <? Z.of_nat (length
             (List.filter
                (fun l => JS.strictEq (numberToString (number l)) query)
                (lureCache p)))).

Definition getByName (p : t) (name' : string) : option LureData :=
  List.find
    (fun l => JS.strictEq (JS.toLowerCase (name l)) (JS.toLowerCase name'))
    (lureCache p).

Definition getByNumber (p : t) (number' : Database.lureNumber)
    : list LureData :=
  List.filter
    (fun l => JS.strictEq (numberToString (number l))
                          (numberToString number'))
    (lureCache p).

Definition getAllLures (p : t) : list LureData := lureCache p.

End LureSearchProvider.

(** ** extension.ts: the colour lookup and the lure detail items *)

Module Extension.

(** The values of the module-level [colorLookup] map. *)
Record ColorInfo := {
  name : string;
  pre1925Id : option (list string);
  companyId : option string
}.

Definition infoOf (color : Database.Color.t) : ColorInfo :=
  {| name := Database.Color.name color;
     pre1925Id := Database.Color.pre1925Id color;
     companyId := Database.Color.companyId color |}.

(** [data.manufacturers?.['creek-chub']?.colors]. *)
Definition creekChubColors (d : Database.t)
    : option (list Database.Color.t) :=
  ms ← Database.manufacturers d;
  m ← List.find (fun '(k, _) => JS.strictEq k "creek-chub") ms;
  Database.Manufacturer.colors m.2.

(** [buildColorLookup] updates the global map; a failure to read or to
    parse is caught and leaves it as it was. *)
Definition buildColorLookup (src : source)
    (colorLookup : gmap string ColorInfo) : gmap string ColorInfo :=
  match src with
  | Parsed d =>
      match creekChubColors d with
      | Some colors =>
          foldl (fun m color => <[Database.Color.id color := infoOf color]> m)
                colorLookup colors
      | None => colorLookup
      end
  | Unreadable | Unparseable => colorLookup
  end.

(** The colour that a lookup built from [src] alone holds under
    [colorId]: of the colours listed by the producer keyed 'creek-chub',
    the last one with that id. *)
Definition retainedColor (src : source) (colorId : string)
    : option Database.Color.t :=
  match src with
  | Parsed d =>
      colors ← creekChubColors d;
      List.find (fun color => JS.strictEq (Database.Color.id color) colorId)
                (rev colors)
  | Unreadable | Unparseable => None
  end.

Definition getColorInfo (colorLookup : gmap string ColorInfo)
    (colorId : string) : ColorInfo :=
  match colorLookup !! colorId with
  | Some info => info
  | None => {| name := colorId; pre1925Id := None; companyId := None |}
  end.

(** The map from colour id to legacy code that [getLureDetailsHtml]
    builds from [lure.pre1925codes]. *)
Definition pre1925Map (lure : LureSearchProvider.LureData)
    : gmap string Z :=
  match LureSearchProvider.pre1925codes lure with
  | Some codes =>
      foldl (fun m item =>
               foldl (fun m' '(colorId, code) => <[colorId := code]> m')
                     m item)
            ∅ codes
  | None => ∅
  end.

(** The lure code of one list item: [None] is the empty text, [Some n]
    the text showing [calculatedCode] = [n]. *)
Definition lureCode (lure : LureSearchProvider.LureData) (info : ColorInfo)
    : option JS.number :=
  match companyId info with
  | Some s =>
      if negb (JS.strictEq s "") && JS.test_digits s
      then
        let baseNumber :=
          JS.mul (JS.floorDiv (toNumber (LureSearchProvider.number lure))
                              100)
                 100 in
        let calculatedCode := JS.add baseNumber (JS.stringToNumber s) in
        Some calculatedCode
      else None
  | None => None
  end.

(** What one [<li>] of the colour lists shows for colour id [c]. *)
Record item := {
  shownName : string;
  derivedCode : option JS.number;
  legacyCode : option Z
}.

Definition colorItem (colorLookup : gmap string ColorInfo)
    (lure : LureSearchProvider.LureData) (c : string) : item :=
  let info := getColorInfo colorLookup c in
  {| shownName := name info;
     derivedCode := lureCode lure info;
     legacyCode := pre1925Map lure !! c |}.

End Extension.

(** ** Ordering predicates for the ranking

    [inOrder lowerQuery a b] says that name [a] may stand before name [b]:
    an exact name is never behind a name that is not exact, among names of
    the same kind a name starting with the query is never behind one that
    does not, and otherwise the collation decides. *)





(** A comparator the sort can rely on: the sign flips with the arguments
    and "not after" is transitive. *)
Class ConsistentCollator (H : JS.Collator) := {
  collator_flip : forall a b : string,
    Z.sgn (JS.localeCompare a b) = - Z.sgn (JS.localeCompare b a);
  collator_trans : forall a b c : string,
    JS.localeCompare a b <= 0 -> JS.localeCompare b c <= 0 ->
    JS.localeCompare a c <= 0
}.

(** [x] is the first element of [l] that [g] accepts: what
    [Array.prototype.find] returns. *)
Definition firstWith {A} (g : A -> bool) (l : list A) (x : A) : Prop :=
  exists i : nat,
    (l !! i = Some x) /\ (g x = true) /\
    (forall (j : nat) (y : A),
       (j < i)%nat -> l !! j = Some y -> g y = false).

(** The query as [search] compares it: lower-cased, then trimmed. *)
Definition normalise (query : string) : string :=
  JS.trim (JS.toLowerCase query).

Fixpoint whitespaceOnly (s : string) : bool :=
  match s with
  | EmptyString => true
  | String c s' => JS.isWhiteSpace c && whitespaceOnly s'
  end.

(** ** Sample data *)

(** Comparison by code units: a collation used to run the examples. *)
Definition codeUnitCollator : JS.Collator :=
  fun a b =>
    match String.compare a b with
    | Lt => -1
    | Eq => 0
    | Gt => 1
    end.

Module Sample.

Definition n700 : JS.safeInteger := JS.SafeInteger 700 eq_refl.

Definition color (i n : string) (code : option string)
    : Database.Color.t :=
  {| Database.Color.id := i;
     Database.Color.name := n;
     Database.Color.yearIntroduced := None;
     Database.Color.yearLastUsed := None;
     Database.Color.companyId := code;
     Database.Color.pre1925Id := None |}.

Definition producer (i n : string) (cs : list Database.Color.t)
    (ls : list Database.Lure.t) : string * Database.Manufacturer.t :=
  (i, {| Database.Manufacturer.id := i;
         Database.Manufacturer.name := n;
         Database.Manufacturer.colors := Some cs;
         Database.Manufacturer.lures := Some ls |}).

Definition lure (n : string) (num : Database.lureNumber)
    (cs : list string) : Database.Lure.t :=
  {| Database.Lure.name := n;
     Database.Lure.number := num;
     Database.Lure.yearIntroduced := None;
     Database.Lure.yearLastMfg := None;
     Database.Lure.colors := Some cs;
     Database.Lure.rare_colors := None;
     Database.Lure.pre1925codes := None;
     Database.Lure.notes := None |}.

Definition document (ms : list (string * Database.Manufacturer.t))
    (ix : option Database.indexesT) : Database.t :=
  {| Database.manufacturers := Some ms; Database.indexes := ix |}.

(** A document that parses but has no [manufacturers]: the text [{}]. *)
Definition emptyObject : Database.t :=
  {| Database.manufacturers := None; Database.indexes := None |}.

(** Three Creek Chub colours whose ids share the text "ccbc-00". *)
Definition creekChub : string * Database.Manufacturer.t :=
  producer "creek-chub" "Creek Chub Bait Company"
    [ color "ccbc-00" "Natural Pikie" (Some "00");
      color "ccbc-00b" "Pikie Scale" (Some "00");
      color "ccbc-12" "Frog" (Some "12");
      color "ccbc-y12" "Yellow Frog" (Some "Y12") ]
    [ lure "Pikie Minnow" (Database.NumberOf n700) ["ccbc-00"; "ccbc-12"];
      lure "Darter" (Database.StringOf "2000") ["ccbc-12"];
      lure "Wiggler" (Database.StringOf "X100") ["ccbc-12"] ].

(** A second producer reusing the local code "12". *)
Definition heddon : string * Database.Manufacturer.t :=
  producer "heddon" "Heddon"
    [ color "hed-12" "Red Head" (Some "12");
      color "hed-9" "Code 1234 Special" None ]
    [ lure "Zaragossa" (Database.StringOf "700") ["hed-12"] ].

(** Cached colours with nothing but an id and a name. *)
Definition cached (i n : string) : ColorSearchProvider.ColorData :=
  ColorSearchProvider.cacheEntry "creek-chub" creekChub.2 (color i n None).

Definition frog := cached "ccbc-19" "Frog".
Definition greenFrog := cached "ccbc-19c" "Green Frog".

Definition withCache (cache : list ColorSearchProvider.ColorData)
    : ColorSearchProvider.t :=
  {| ColorSearchProvider.database := None;
     ColorSearchProvider.colorCache := cache |}.

(** The catalogue without the optional [indexes] block. *)
Definition plain : Database.t := document [creekChub; heddon] None.

Definition colorIndex : ColorSearchProvider.t :=
  ColorSearchProvider.new (Parsed plain).

Definition lureIndex : LureSearchProvider.t :=
  LureSearchProvider.new (Parsed plain).

(** The colour lookup as [activate] builds it. *)
Definition colorLookup : gmap string Extension.ColorInfo :=
  Extension.buildColorLookup (Parsed plain) ∅.

Definition pikie : LureSearchProvider.LureData :=
  LureSearchProvider.cacheEntry "creek-chub" creekChub.2
    (lure "Pikie Minnow" (Database.NumberOf n700) ["ccbc-00"; "ccbc-12"]).

Definition wiggler : LureSearchProvider.LureData :=
  LureSearchProvider.cacheEntry "creek-chub" creekChub.2
    (lure "Wiggler" (Database.StringOf "X100") ["ccbc-12"]).

Definition byIdOf (m n : string) (code : option string)
    : Database.byIdEntry :=
  {| Database.manufacturerId := m;
     Database.colorName := n;
     Database.companyId := code |}.

(** The same catalogue with its [indexes] block. *)
Definition indexes : Database.indexesT :=
  {| Database.byId :=
       Some (list_to_map
               [ ("ccbc-00", byIdOf "creek-chub" "Natural Pikie" (Some "00"));
                 ("ccbc-00b", byIdOf "creek-chub" "Pikie Scale" (Some "00"));
                 ("ccbc-12", byIdOf "creek-chub" "Frog" (Some "12"));
                 ("ccbc-y12", byIdOf "creek-chub" "Yellow Frog" (Some "Y12"));
                 ("hed-12", byIdOf "heddon" "Red Head" (Some "12"));
                 ("hed-9", byIdOf "heddon" "Code 1234 Special" None) ]);
     Database.byCompanyId :=
       Some (list_to_map
               [ ("00", ["ccbc-00"; "ccbc-00b"]);
                 ("12", ["ccbc-12"; "hed-12"]);
                 ("Y12", ["ccbc-y12"]) ]) |}.

Definition indexed : Database.t :=
  document [creekChub; heddon] (Some indexes).

Definition indexedColorIndex : ColorSearchProvider.t :=
  ColorSearchProvider.new (Parsed indexed).

Definition natural :=
  ColorSearchProvider.cacheEntry "creek-chub" creekChub.2
    (color "ccbc-00" "Natural Pikie" (Some "00")).
Definition scale :=
  ColorSearchProvider.cacheEntry "creek-chub" creekChub.2
    (color "ccbc-00b" "Pikie Scale" (Some "00")).
Definition frog12 :=
  ColorSearchProvider.cacheEntry "creek-chub" creekChub.2
    (color "ccbc-12" "Frog" (Some "12")).
Definition yellowFrog :=
  ColorSearchProvider.cacheEntry "creek-chub" creekChub.2
    (color "ccbc-y12" "Yellow Frog" (Some "Y12")).
Definition redHead :=
  ColorSearchProvider.cacheEntry "heddon" heddon.2
    (color "hed-12" "Red Head" (Some "12")).
Definition special :=
  ColorSearchProvider.cacheEntry "heddon" heddon.2
    (color "hed-9" "Code 1234 Special" None).

End Sample.

(** ** extension.ts: the quick-pick lists

    [showColorResults] and [showLureResults] turn the results of a search
    into the items of a quick pick, and their handlers turn a chosen item
    back into a result. The texts of the messages are left out. *)

Module QuickPick.

(** What is left of [s] behind a prefix as long as [p]. *)
Fixpoint afterPrefix (s p : string) : string :=
  match p, s with
  | EmptyString, _ => s
  | String _ _, EmptyString => EmptyString
  | String _ p', String _ s' => afterPrefix s' p'
  end.

(** [s.replace(p, r)] for a text [p] and a replacement [r] without [$]:
    the first occurrence of [p] gives way to [r]. *)
Fixpoint replace (s p r : string) : string :=
  if JS.startsWith s p then r +:+ afterPrefix s p
  else
    match s with
    | EmptyString => EmptyString
    | String c s' => String c (replace s' p r)
    end.

(** [l.join(sep)]. *)
Fixpoint join (sep : string) (l : list string) : string :=
  match l with
  | [] => EmptyString
  | [x] => x
  | x :: l' => x +:+ sep +:+ join sep l'
  end.

(** Truthiness of an optional text and of an optional number. *)
Definition truthyText (o : option string) : bool :=
  from_option (fun s => negb (JS.strictEq s "")) false o.

Definition truthyNumber (o : option JS.safeInteger) : bool :=
  from_option (fun z => negb (JS.intValue z =? 0)) false o.

(** The text of an optional number inside a template. *)
Definition numberText (o : option JS.safeInteger) : string :=
  from_option (fun z => pretty (JS.intValue z)) "" o.

Record item := {
  label : string;
  description : string;
  detail : string
}.

(** [.filter(Boolean).join(' | ')]. *)
Definition detailOf (parts : list string) : string :=
  join " | " (List.filter (fun s => negb (JS.strictEq s "")) parts).

Definition colorItemOf (result : ColorSearchProvider.ColorData) : item :=
  {| label := "$(symbol-color) " +:+ ColorSearchProvider.name result;
     description := ColorSearchProvider.id result;
     detail :=
       detailOf
         [ "Manufacturer: " +:+ ColorSearchProvider.manufacturerName result;
           if truthyText (ColorSearchProvider.companyId result)
           then "Company ID: "
                +:+ default "" (ColorSearchProvider.companyId result)
           else "";
           if truthyNumber (ColorSearchProvider.yearIntroduced result)
           then "Introduced: "
                +:+ numberText (ColorSearchProvider.yearIntroduced result)
           else "";
           if truthyNumber (ColorSearchProvider.yearLastUsed result)
           then "Last Used: "
                +:+ numberText (ColorSearchProvider.yearLastUsed result)
           else "" ] |}.

Definition lureItemOf (result : LureSearchProvider.LureData) : item :=
  {| label := "$(file) " +:+ LureSearchProvider.name result;
     description := "#" +:+ numberToString (LureSearchProvider.number result);
     detail :=
       detailOf
         [ "Manufacturer: " +:+ LureSearchProvider.manufacturerName result;
           if truthyNumber (LureSearchProvider.yearIntroduced result)
           then "Introduced: "
                +:+ numberText (LureSearchProvider.yearIntroduced result)
           else "";
           match LureSearchProvider.colors result with
           | Some colors =>
               "Colors: " +:+ pretty (Z.of_nat (length colors))
           | None => ""
           end ] |}.

(** [showColorResults]: the call of [search] may throw; without results a
    message is shown ([None]), otherwise the quick pick with these items. *)
Definition showColorResults `{JS.Collator} (p : ColorSearchProvider.t)
    (searchTerm : string) : JS.completion (option (list item)) :=
  match ColorSearchProvider.search p searchTerm with
  | JS.Throw e => JS.Throw e
  | JS.Return results =>
      if (length results =? 0)%nat then JS.Return None
      else JS.Return (Some (map colorItemOf results))
  end.

Definition showLureResults `{JS.Collator} (p : LureSearchProvider.t)
    (searchTerm : string) : JS.completion (option (list item)) :=
  match LureSearchProvider.search p searchTerm with
  | JS.Throw e => JS.Throw e
  | JS.Return results =>
      if (length results =? 0)%nat then JS.Return None
      else JS.Return (Some (map lureItemOf results))
  end.

(** [onDidAccept] of the colour list: the result whose details open. *)
Definition acceptColor (results : list ColorSearchProvider.ColorData)
    (selected : option item) : option ColorSearchProvider.ColorData :=
  match selected with
  | Some it =>
      List.find
        (fun r => JS.strictEq (ColorSearchProvider.id r) (description it))
        results
  | None => None
  end.

(** [onDidAccept] of the lure list. *)
Definition acceptLure (results : list LureSearchProvider.LureData)
    (selected : option item) : option LureSearchProvider.LureData :=
  match selected with
  | Some it =>
      let lureName := replace (label it) "$(file) " "" in
      List.find
        (fun r => JS.strictEq (LureSearchProvider.name r) lureName)
        results
  | None => None
  end.

(** [onDidTriggerItemButton]: the text copied to the clipboard, if any. *)
Definition copiedColorId (it : item) : option string :=
  if negb (JS.strictEq (description it) "") then Some (description it)
  else None.

Definition copiedLureName (it : item) : option string :=
  let lureName := replace (label it) "$(file) " "" in
  if negb (JS.strictEq lureName "") then Some lureName else None.

End QuickPick.

(** ** Further notions used in the statements *)

(** The pairs of [lure.pre1925codes], item after item, each item in the
    order Object.entries gives. *)
Definition legacyPairs (lure : LureSearchProvider.LureData)
    : list (string * Z) :=
  concat (default [] (LureSearchProvider.pre1925codes lure)).

(** The colours of a producer, none when the collection is absent. *)
Definition colorsOf (m : Database.Manufacturer.t) : list Database.Color.t :=
  default [] (Database.Manufacturer.colors m).

Definition luresOf (m : Database.Manufacturer.t) : list Database.Lure.t :=
  default [] (Database.Manufacturer.lures m).

Module Sample2.

(** A variant with legacy codes, one colour listed twice. *)
Definition darter : LureSearchProvider.LureData :=
  {| LureSearchProvider.name := "Darter";
     LureSearchProvider.number := Database.StringOf "2000";
     LureSearchProvider.yearIntroduced := Some (JS.SafeInteger 1924 eq_refl);
     LureSearchProvider.yearLastMfg := None;
     LureSearchProvider.colors := Some ["ccbc-12"; "ccbc-00"];
     LureSearchProvider.rare_colors := None;
     LureSearchProvider.pre1925codes :=
       Some [[("ccbc-12", 5)]; [("ccbc-00", 1)]; [("ccbc-12", 7)]];
     LureSearchProvider.notes := None;
     LureSearchProvider.manufacturerId := "creek-chub";
     LureSearchProvider.manufacturerName := "Creek Chub Bait Company" |}.

Definition zaragossa : LureSearchProvider.LureData :=
  LureSearchProvider.cacheEntry "heddon" Sample.heddon.2
    (Sample.lure "Zaragossa" (Database.StringOf "700") ["hed-12"]).

End Sample2.

Module Sample3.

(** An [indexes] block left over from another catalogue: its entries name
    ids that the cache does not hold. *)
Definition staleIndexes : Database.indexesT :=
  {| Database.byId :=
       Some (list_to_map
               [ ("frog", Sample.byIdOf "creek-chub" "Frog" (Some "12")) ]);
     Database.byCompanyId :=
       Some (list_to_map [ ("frog", ["old-1"; "old-2"]) ]) |}.

Definition staleColorIndex : ColorSearchProvider.t :=
  ColorSearchProvider.new
    (Parsed (Sample.document [Sample.creekChub; Sample.heddon]
               (Some staleIndexes))).



End Sample3.

(** * Properties *)

(** ** Strings *)

Section Strings.

Lemma toLowerChar_isWhiteSpace c :
  JS.isWhiteSpace (JS.toLowerChar c) = JS.isWhiteSpace c.
Proof. by destruct c as [[] [] [] [] [] [] [] []]. Qed.

Lemma toLowerChar_idem c :
  JS.toLowerChar (JS.toLowerChar c) = JS.toLowerChar c.
Proof. by destruct c as [[] [] [] [] [] [] [] []]. Qed.

Lemma toLowerCase_idem s :
  JS.toLowerCase (JS.toLowerCase s) = JS.toLowerCase s.
Proof.
  induction s as [|c s IH]; simpl; [done|].
  by rewrite toLowerChar_idem, IH.
Qed.

Lemma toLowerCase_empty s : JS.toLowerCase s = "" <-> s = "".
Proof. by destruct s. Qed.

Lemma trimStart_toLowerCase s :
  JS.trimStart (JS.toLowerCase s) = JS.toLowerCase (JS.trimStart s).
Proof.
  induction s as [|c s IH]; simpl; [done|].
  rewrite toLowerChar_isWhiteSpace.
  by destruct (JS.isWhiteSpace c).
Qed.

Lemma trimEnd_toLowerCase s :
  JS.trimEnd (JS.toLowerCase s) = JS.toLowerCase (JS.trimEnd s).
Proof.
  induction s as [|c s IH]; simpl; [done|].
  rewrite toLowerChar_isWhiteSpace, IH.
  rewrite (bool_decide_ext _ _ (toLowerCase_empty (JS.trimEnd s))).
  by destruct (JS.isWhiteSpace c), (bool_decide (JS.trimEnd s = "")).
Qed.

Lemma trim_toLowerCase s :
  JS.trim (JS.toLowerCase s) = JS.toLowerCase (JS.trim s).
Proof.
  unfold JS.trim. by rewrite trimStart_toLowerCase, trimEnd_toLowerCase.
Qed.


Lemma startsWith_refl s : JS.startsWith s s = true.
Proof.
  induction s as [|c s IH]; simpl; [done|].
  by rewrite bool_decide_eq_true_2.
Qed.

Lemma includes_startsWith s p :
  JS.startsWith s p = true -> JS.includes s p = true.
Proof. intros E. destruct s; simpl in *; by rewrite E. Qed.



(** Trimming a trimmed text changes nothing. *)
Lemma trimEnd_idem s : JS.trimEnd (JS.trimEnd s) = JS.trimEnd s.
Proof.
  induction s as [|c s IH]; simpl; [done|].
  destruct (JS.isWhiteSpace c && bool_decide (JS.trimEnd s = "")) eqn:E;
    simpl; [done|].
  by rewrite IH, E.
Qed.

Lemma trimStart_head s :
  match JS.trimStart s with
  | EmptyString => True
  | String c _ => JS.isWhiteSpace c = false
  end.
Proof.
  induction s as [|c s IH]; simpl; [done|].
  by destruct (JS.isWhiteSpace c) eqn:E.
Qed.

Lemma trimStart_fixed s :
  match s with
  | EmptyString => True
  | String c _ => JS.isWhiteSpace c = false
  end ->
  JS.trimStart s = s.
Proof. destruct s; simpl; [done|]. by intros ->. Qed.

Lemma trimEnd_head s :
  match s with
  | EmptyString => True
  | String c _ => JS.isWhiteSpace c = false
  end ->
  match JS.trimEnd s with
  | EmptyString => True
  | String c _ => JS.isWhiteSpace c = false
  end.
Proof. destruct s; simpl; [done|]. intros E. by rewrite E. Qed.

Lemma trim_idem s : JS.trim (JS.trim s) = JS.trim s.
Proof.
  unfold JS.trim.
  rewrite (trimStart_fixed (JS.trimEnd (JS.trimStart s))).
  - apply trimEnd_idem.
  - apply trimEnd_head, trimStart_head.
Qed.

Lemma normalise_idem q : normalise (normalise q) = normalise q.
Proof.
  unfold normalise.
  by rewrite trim_toLowerCase, trim_idem, <- trim_toLowerCase,
    toLowerCase_idem.
Qed.

Lemma toLowerCase_normalise q :
  JS.toLowerCase (normalise q) = normalise q.
Proof.
  unfold normalise. by rewrite <- trim_toLowerCase, toLowerCase_idem.
Qed.

(** For a query without surrounding white space the normal form is the
    lower-cased query. *)
Lemma normalise_unpadded q : JS.trim q = q -> normalise q = JS.toLowerCase q.
Proof. intros E. unfold normalise. by rewrite trim_toLowerCase, E. Qed.

Lemma whitespaceOnly_trimStart s :
  whitespaceOnly s = true -> JS.trimStart s = "".
Proof.
  induction s as [|c s IH]; simpl; [done|].
  intros [-> ?]%andb_true_iff. auto.
Qed.

Lemma whitespaceOnly_toLowerCase s :
  whitespaceOnly (JS.toLowerCase s) = whitespaceOnly s.
Proof.
  induction s as [|c s IH]; simpl; [done|].
  by rewrite toLowerChar_isWhiteSpace, IH.
Qed.

Lemma normalise_blank q : whitespaceOnly q = true -> normalise q = "".
Proof.
  intros E. unfold normalise, JS.trim.
  rewrite whitespaceOnly_trimStart; [done|].
  by rewrite whitespaceOnly_toLowerCase.
Qed.

End Strings.

(** ** Sorting *)

Section SortFacts.
Context {A : Type} (cmp : A -> A -> Z).

Lemma insert_sorted_perm x l :
  Permutation (x :: l) (JS.insert_sorted cmp x l).
Proof.
  induction l as [|y l IH]; simpl; [done|].
  destruct (cmp x y <=? 0); [done|].
  rewrite <- IH. apply perm_swap.
Qed.

Lemma sort_perm l : Permutation l (JS.sort cmp l).
Proof.
  induction l as [|x l IH]; simpl; [done|].
  rewrite <- insert_sorted_perm. by constructor.
Qed.

Hypothesis cmp_total : forall a b, cmp a b <= 0 \/ cmp b a <= 0.
Hypothesis cmp_trans :
  forall a b c, cmp a b <= 0 -> cmp b c <= 0 -> cmp a c <= 0.




End SortFacts.

(** ** The comparator of the ranking *)

Section Comparator.
Context {H : JS.Collator} {HC : ConsistentCollator H}.
Variable lowerQuery : string.


Lemma exact_starts n :
  JS.strictEq (JS.toLowerCase n) lowerQuery = true ->
  JS.startsWith (JS.toLowerCase n) lowerQuery = true.
Proof.
  intros E%bool_decide_eq_true. rewrite E. apply startsWith_refl.
Qed.

Ltac split_names :=
  unfold compareNames;
  repeat match goal with
  | |- context [JS.strictEq (JS.toLowerCase ?n) lowerQuery] =>
      let E := fresh "E" in
      pose proof (exact_starts n) as E;
      destruct (JS.strictEq (JS.toLowerCase n) lowerQuery);
      [rewrite E by done|clear E]
  | |- context [JS.startsWith (JS.toLowerCase ?n) lowerQuery] =>
      destruct (JS.startsWith (JS.toLowerCase n) lowerQuery)
  end; simpl.


Lemma compareNames_trans a b c :
  compareNames lowerQuery a b <= 0 -> compareNames lowerQuery b c <= 0 ->
  compareNames lowerQuery a c <= 0.
Proof.
  intros Hab Hbc. revert Hab Hbc.
  split_names; try lia; apply collator_trans.
Qed.



End Comparator.

(** The sample collation is one the sort can rely on. *)
Lemma codeUnit_consistent : ConsistentCollator codeUnitCollator.
Proof.
  assert (forall a b, @JS.localeCompare codeUnitCollator a b <= 0
                      <-> String.le a b) as Hle.
  { intros a b. unfold JS.localeCompare, codeUnitCollator, String.le,
      String.leb.
    destruct (String.compare a b); simpl; split; intros; try done; lia. }
  split.
  - intros a b. unfold JS.localeCompare, codeUnitCollator.
    rewrite (String.compare_antisym b a).
    by destruct (String.compare a b).
  - intros a b c. rewrite !Hle. apply transitivity.
Qed.

(** ** Reaching the substring scan *)

Section Search.
Context {H : JS.Collator}.

Lemma color_search_scan p query :
  ColorSearchProvider.reachesScan p query = true ->
  ColorSearchProvider.search p query
  = JS.Return (ColorSearchProvider.scan p (normalise query)).
Proof.
  unfold ColorSearchProvider.reachesScan, ColorSearchProvider.search,
    normalise.
  destruct (JS.strictEq _ ""); simpl; [done|].
  destruct (ColorSearchProvider.exactMatch p _); simpl; [done|].
  destruct (ColorSearchProvider.byCompanyIdEntry p query); [|done..].
  by destruct (0 <? _).
Qed.

Lemma lure_search_scan p query :
  LureSearchProvider.reachesScan p query = true ->
  LureSearchProvider.search p query
  = JS.Return (LureSearchProvider.scan p query (normalise query)).
Proof.
  unfold LureSearchProvider.reachesScan, LureSearchProvider.search,
    normalise.
  destruct (JS.strictEq _ ""); simpl; [done|].
  by destruct (0 <? _).
Qed.

(** C8. A query that is empty or made of white space only gives the
    empty sequence, without an error, on the Color Index and on the
    Variant Index, whatever their caches hold. *)
Theorem search_blank_query (pc : ColorSearchProvider.t)
    (pl : LureSearchProvider.t) (query : string) :
  whitespaceOnly query = true ->
  ColorSearchProvider.search pc query = JS.Return [] /\
  LureSearchProvider.search pl query = JS.Return [].
Proof.
  intros E%normalise_blank. unfold normalise in E.
  unfold ColorSearchProvider.search, LureSearchProvider.search.
  by rewrite E.
Qed.

End Search.

Lemma search_blank_query_witness :
  whitespaceOnly "   " = true /\
  (@ColorSearchProvider.search codeUnitCollator Sample.colorIndex "   "
   = JS.Return [] /\
   @LureSearchProvider.search codeUnitCollator Sample.lureIndex "   "
   = JS.Return []).
Proof.
  split; [reflexivity|].
  apply (@search_blank_query codeUnitCollator). reflexivity.
Defined.

(** ** Ranking of the scan results *)

Section Ranking.
Context {H : JS.Collator} {HC : ConsistentCollator H}.


End Ranking.


(** ** Looking records up by a key *)

Section Lookup.
Context {A B : Type} (f : A -> B).

Lemma find_some_elem (g : A -> bool) (l : list A) x :
  List.find g l = Some x -> x ∈ l /\ g x = true.
Proof. intros [? ?]%find_some. by rewrite list_elem_of_In. Qed.

Lemma find_none_elem (g : A -> bool) (l : list A) x :
  List.find g l = None -> x ∈ l -> g x = false.
Proof.
  intros E Hx%list_elem_of_In. by apply (find_none g l E).
Qed.

(** Records of a list whose keys are distinct are told apart by them. *)
Lemma key_inj (l : list A) a b :
  NoDup (f <$> l) -> a ∈ l -> b ∈ l -> f a = f b -> a = b.
Proof.
  induction l as [|x l IH]; simpl; [by intros _ ?%elem_of_nil|].
  intros [Hx Hl]%NoDup_cons [->|Ha]%elem_of_cons [->|Hb]%elem_of_cons E;
    auto.
  - destruct Hx. rewrite E. by apply list_elem_of_fmap_2.
  - destruct Hx. rewrite <- E. by apply list_elem_of_fmap_2.
Qed.

Lemma find_unique (g : A -> bool) (l : list A) c :
  NoDup (f <$> l) -> c ∈ l -> g c = true ->
  (forall x, x ∈ l -> g x = true -> f x = f c) ->
  List.find g l = Some c.
Proof.
  intros Hl Hc Hg Hkey.
  destruct (List.find g l) as [x|] eqn:E.
  - apply find_some_elem in E as [Hx Hgx].
    f_equal. apply (key_inj l); auto.
  - apply (find_none_elem _ _ c) in E; [congruence|done].
Qed.

(** [find] returns the first element that the test accepts. *)
Lemma find_firstWith (g : A -> bool) (l : list A) (x : A) :
  List.find g l = Some x <-> firstWith g l x.
Proof.
  induction l as [|y l IH]; simpl.
  - split; [done|]. by intros (i & Hi & _).
  - destruct (g y) eqn:Ey.
    + split.
      * intros [= <-]. exists 0%nat. repeat split; [done|]. intros; lia.
      * intros ([|i] & Hi & Hg & Hfirst).
        -- by injection Hi as ->.
        -- specialize (Hfirst 0%nat y ltac:(lia) eq_refl). congruence.
    + rewrite IH. split.
      * intros (i & Hi & Hg & Hfirst). exists (S i). repeat split; [done..|].
        intros [|j] z Hj Hz; [by injection Hz as <-|].
        apply (Hfirst j); [lia|done].
      * intros ([|i] & Hi & Hg & Hfirst).
        -- injection Hi as ->. congruence.
        -- exists i. repeat split; [done..|].
           intros j z Hj Hz. apply (Hfirst (S j)); [lia|done].
Qed.

End Lookup.

Lemma filter_bool_decide {A} (P : A -> Prop) `{!forall x, Decision (P x)}
    (l : list A) :
  List.filter (fun x => bool_decide (P x)) l = filter P l.
Proof.
  induction l as [|x l IH]; simpl; [done|].
  rewrite filter_cons, IH. by destruct (decide (P x)) as [HP|HP];
    [rewrite bool_decide_eq_true_2|rewrite bool_decide_eq_false_2].
Qed.

(** ** The Color Index: lookups by id *)

Section ColorIndex.
Context {H : JS.Collator}.

Lemma nonempty_strictEq s : s <> "" -> JS.strictEq s "" = false.
Proof. intros. by apply bool_decide_eq_false_2. Qed.



(** X23. When the trimmed, lower-cased query is the id of a cached
    colour, is not empty, and the document's [indexes.byId] answers for
    it, [search] returns one colour only, unranked: the first cached
    colour whose lower-cased id is the query, which is that colour when
    the lower-cased ids of the cache are distinct. *)
Theorem search_exact_id_indexed (p : ColorSearchProvider.t)
    (c : ColorSearchProvider.ColorData) (q : string) :
  c ∈ ColorSearchProvider.colorCache p ->
  ColorSearchProvider.id c = normalise q ->
  ColorSearchProvider.id c <> "" ->
  ColorSearchProvider.byIdHit p (normalise q) = true ->
  exists c',
    ColorSearchProvider.search p q = JS.Return [c'] /\
    firstWith
      (fun x => JS.strictEq (JS.toLowerCase (ColorSearchProvider.id x))
                            (normalise q))
      (ColorSearchProvider.colorCache p) c' /\
    c' ∈ ColorSearchProvider.colorCache p /\
    JS.toLowerCase (ColorSearchProvider.id c') = ColorSearchProvider.id c /\
    (NoDup ((fun x => JS.toLowerCase (ColorSearchProvider.id x))
              <$> ColorSearchProvider.colorCache p) ->
     c' = c).
Proof.
  intros Hc Hid Hne Hhit.
  assert (JS.toLowerCase (ColorSearchProvider.id c) = normalise q) as Hlow.
  { rewrite Hid. apply toLowerCase_normalise. }
  unfold ColorSearchProvider.search, ColorSearchProvider.exactMatch.
  fold (normalise q). rewrite Hhit, nonempty_strictEq by congruence.
  destruct (List.find _ _) as [x|] eqn:E.
  - pose proof (proj1 (find_firstWith _ _ _) E) as Hfirst.
    apply find_some_elem in E as [Hx Ex%bool_decide_eq_true].
    exists x. repeat split; [done..|congruence|].
    intros Hids.
    apply (key_inj (fun x => JS.toLowerCase (ColorSearchProvider.id x))
                   (ColorSearchProvider.colorCache p)); auto.
    congruence.
  - apply (find_none_elem _ _ c) in E; [|done].
    by apply bool_decide_eq_false in E.
Qed.

(** X24. When the document's [indexes.byCompanyId]
    lists, under the raw query, exactly the ids of the cached colours
    with that producer code (at least one), ids are distinct, and the
    query takes no exact-id match, [search] returns those colours and no
    other, unranked, in the order of the index entry. *)
Theorem search_company_code_indexed (p : ColorSearchProvider.t)
    (q : string) (ids : list string) :
  normalise q <> "" ->
  ColorSearchProvider.exactMatch p (normalise q) = None ->
  ColorSearchProvider.byCompanyIdEntry p q = JS.Own ids ->
  NoDup (ColorSearchProvider.id <$> ColorSearchProvider.colorCache p) ->
  ids ≡ₚ ColorSearchProvider.id <$> ColorSearchProvider.getByCompanyId p q ->
  ColorSearchProvider.getByCompanyId p q <> [] ->
  ColorSearchProvider.search p q
  = JS.Return (ColorSearchProvider.companyIdMatches p ids) /\
  ColorSearchProvider.companyIdMatches p ids
  ≡ₚ ColorSearchProvider.getByCompanyId p q /\
  ColorSearchProvider.id <$> ColorSearchProvider.companyIdMatches p ids
  = ids.
Proof.
  intros Hne Hexact Hentry Hids Hix Hsome.
  assert (forall l : list ColorSearchProvider.ColorData,
            l ⊆ ColorSearchProvider.colorCache p ->
            ColorSearchProvider.companyIdMatches p
              (ColorSearchProvider.id <$> l) = l) as Hback.
  { induction l as [|x l IH]; intros Hl; [done|].
    unfold ColorSearchProvider.companyIdMatches in *. simpl.
    rewrite (find_unique ColorSearchProvider.id _ _ x); auto.
    - simpl. f_equal. apply IH. set_solver.
    - set_solver.
    - by apply bool_decide_eq_true_2.
    - by intros y _ ?%bool_decide_eq_true. }
  assert (ColorSearchProvider.getByCompanyId p q
          ⊆ ColorSearchProvider.colorCache p) as Hsub.
  { intros x. unfold ColorSearchProvider.getByCompanyId.
    rewrite !list_elem_of_In, filter_In. tauto. }
  assert (ColorSearchProvider.companyIdMatches p ids
          ≡ₚ ColorSearchProvider.getByCompanyId p q) as Hperm.
  { rewrite <- (Hback _ Hsub).
    unfold ColorSearchProvider.companyIdMatches. by rewrite Hix. }
  split; [|split; [done|]].
  - unfold ColorSearchProvider.search. fold (normalise q).
    rewrite (nonempty_strictEq _ Hne), Hexact, Hentry.
    destruct (ColorSearchProvider.companyIdMatches p ids) eqn:E; [|done].
    by apply Permutation_nil_l in Hperm.
  - assert (forall i, i ∈ ids ->
              exists x, x ∈ ColorSearchProvider.colorCache p
                        /\ ColorSearchProvider.id x = i) as Hcover.
    { intros i. rewrite Hix. intros (x & -> & Hx)%list_elem_of_fmap.
      eauto. }
    clear Hix Hperm Hentry. unfold ColorSearchProvider.companyIdMatches.
    induction ids as [|i ids IH]; [done|]. simpl.
    destruct (Hcover i) as (x & Hx & <-); [set_solver|].
    rewrite (find_unique ColorSearchProvider.id _ _ x); auto.
    + simpl. f_equal. apply IH. intros j Hj. apply Hcover. set_solver.
    + by apply bool_decide_eq_true_2.
    + by intros y _ ?%bool_decide_eq_true.
Qed.

End ColorIndex.



(** C1, on the code. Without an [indexes] block the query "CCBC-00",
    whose normal form is the id of a cached colour, is not tried as an
    exact id: it takes the substring scan and comes back with every colour
    whose id contains it. *)
Lemma search_exact_id_unindexed :
  ColorSearchProvider.database Sample.colorIndex ≫= Database.indexes = None /\
  Sample.natural ∈ ColorSearchProvider.colorCache Sample.colorIndex /\
  normalise "CCBC-00" = ColorSearchProvider.id Sample.natural /\
  @ColorSearchProvider.search codeUnitCollator Sample.colorIndex "CCBC-00"
  = JS.Return [Sample.natural; Sample.scale] /\
  @ColorSearchProvider.search codeUnitCollator Sample.colorIndex "CCBC-00"
  <> JS.Return [Sample.natural].
Proof.
  split; [reflexivity|].
  split; [apply list_elem_of_In; vm_compute; auto|].
  split; [reflexivity|]. split; [reflexivity|].
  vm_compute. discriminate.
Qed.

Lemma search_exact_id_indexed_witness :
  Sample.natural ∈ ColorSearchProvider.colorCache Sample.indexedColorIndex /\
  ColorSearchProvider.id Sample.natural = normalise " CCBC-00 " /\
  ColorSearchProvider.id Sample.natural <> "" /\
  ColorSearchProvider.byIdHit Sample.indexedColorIndex (normalise " CCBC-00 ")
  = true /\
  exists c',
    @ColorSearchProvider.search codeUnitCollator Sample.indexedColorIndex
      " CCBC-00 " = JS.Return [c'] /\
    firstWith
      (fun x => JS.strictEq (JS.toLowerCase (ColorSearchProvider.id x))
                            (normalise " CCBC-00 "))
      (ColorSearchProvider.colorCache Sample.indexedColorIndex) c' /\
    c' ∈ ColorSearchProvider.colorCache Sample.indexedColorIndex /\
    JS.toLowerCase (ColorSearchProvider.id c')
    = ColorSearchProvider.id Sample.natural /\
    (NoDup ((fun x => JS.toLowerCase (ColorSearchProvider.id x))
              <$> ColorSearchProvider.colorCache Sample.indexedColorIndex) ->
     c' = Sample.natural).
Proof.
  assert (Sample.natural
          ∈ ColorSearchProvider.colorCache Sample.indexedColorIndex)
    as Hc by (apply list_elem_of_In; vm_compute; auto).
  repeat (split; [first [assumption|discriminate|reflexivity]|]).
  apply (@search_exact_id_indexed codeUnitCollator Sample.indexedColorIndex
           Sample.natural " CCBC-00 " Hc eq_refl);
    [discriminate|reflexivity].
Defined.

(** C2, on the code. Two colours of different producers carry the code
    "12"; without an [indexes] block the query "12" is not looked up as a
    producer code: it takes the ranked substring scan, which also returns
    colours without that code. *)
Lemma search_company_code_unindexed :
  ColorSearchProvider.database Sample.colorIndex ≫= Database.indexes = None /\
  ColorSearchProvider.getByCompanyId Sample.colorIndex "12"
  = [Sample.frog12; Sample.redHead] /\
  ColorSearchProvider.manufacturerId Sample.frog12
  <> ColorSearchProvider.manufacturerId Sample.redHead /\
  @ColorSearchProvider.search codeUnitCollator Sample.colorIndex "12"
  = JS.Return
      [Sample.special; Sample.frog12; Sample.redHead; Sample.yellowFrog] /\
  ColorSearchProvider.companyId Sample.special = None.
Proof.
  split; [reflexivity|]. split; [reflexivity|]. split; [discriminate|].
  split; reflexivity.
Qed.

Lemma search_company_code_indexed_witness :
  normalise "12" <> "" /\
  ColorSearchProvider.exactMatch Sample.indexedColorIndex (normalise "12")
  = None /\
  ColorSearchProvider.byCompanyIdEntry Sample.indexedColorIndex "12"
  = JS.Own ["ccbc-12"; "hed-12"] /\
  NoDup (ColorSearchProvider.id
           <$> ColorSearchProvider.colorCache Sample.indexedColorIndex) /\
  ["ccbc-12"; "hed-12"]
  ≡ₚ ColorSearchProvider.id
       <$> ColorSearchProvider.getByCompanyId Sample.indexedColorIndex "12" /\
  ColorSearchProvider.getByCompanyId Sample.indexedColorIndex "12" <> [] /\
  @ColorSearchProvider.search codeUnitCollator Sample.indexedColorIndex "12"
  = JS.Return [Sample.frog12; Sample.redHead].
Proof.
  assert (NoDup (ColorSearchProvider.id
                   <$> ColorSearchProvider.colorCache
                         Sample.indexedColorIndex))
    as Hids by (apply (bool_decide_unpack _); vm_compute; exact I).
  assert (["ccbc-12"; "hed-12"]
          ≡ₚ ColorSearchProvider.id
               <$> ColorSearchProvider.getByCompanyId
                     Sample.indexedColorIndex "12")
    as Hix by (vm_compute; reflexivity).
  assert (ColorSearchProvider.getByCompanyId Sample.indexedColorIndex "12"
          <> []) as Hsome by discriminate.
  assert (normalise "12" <> "") as Hne by discriminate.
  repeat (split; [first [assumption|reflexivity]|]).
  destruct (@search_company_code_indexed codeUnitCollator
              Sample.indexedColorIndex "12" ["ccbc-12"; "hed-12"]
              Hne eq_refl eq_refl Hids Hix Hsome) as (Hsearch & _ & _).
  exact Hsearch.
Defined.

(** ** The lure code of a colour item *)

Section LureCode.

Lemma isDigit_not_white c :
  JS.isDigit c = true -> JS.isWhiteSpace c = false.
Proof. by destruct c as [[] [] [] [] [] [] [] []]. Qed.

Lemma trimEnd_digits s : JS.allDigits s = true -> JS.trimEnd s = s.
Proof.
  induction s as [|c s IH]; simpl; [done|].
  intros [Hc Hs]%andb_true_iff.
  by rewrite (isDigit_not_white c Hc), IH.
Qed.

Lemma trim_digits s : JS.allDigits s = true -> JS.trim s = s.
Proof.
  intros Hs. unfold JS.trim. rewrite trimStart_fixed.
  - by apply trimEnd_digits.
  - destruct s; simpl in *; [done|].
    apply andb_true_iff in Hs as [Hc _]. by apply isDigit_not_white.
Qed.

Lemma num_safe z : JS.isSafeInteger z = true -> JS.num z = JS.Num z.
Proof. unfold JS.num. by intros ->. Qed.

Lemma num_Num z n :
  JS.num z = JS.Num n -> n = z /\ JS.isSafeInteger n = true.
Proof.
  unfold JS.num. destruct (JS.isSafeInteger z) eqn:E; [|done].
  by intros [= <-].
Qed.

(** [Number] of a digit string is its decimal value, when that is a safe
    integer. *)
Lemma stringToNumber_digits s :
  JS.test_digits s = true -> JS.isSafeInteger (JS.decimal s) = true ->
  JS.stringToNumber s = JS.Num (JS.decimal s).
Proof.
  unfold JS.test_digits, JS.stringToNumber.
  intros [Hne Hs]%andb_true_iff Hsafe. rewrite (trim_digits s Hs).
  destruct s; [done|]. by rewrite Hs, num_safe.
Qed.

(** A number that the model determines as an integer is a safe integer. *)
Lemma toNumber_safe x n : toNumber x = JS.Num n -> JS.isSafeInteger n = true.
Proof.
  destruct x as [z|x|s]; simpl; [| done |].
  - intros [= <-]. apply JS.intSafe.
  - unfold JS.stringToNumber.
    destruct (JS.trim s) as [|c t]; [by intros [= <-]|].
    destruct (JS.allDigits _); [by intros [_ ?]%num_Num|].
    destruct (_ && JS.test_digits t).
    { destruct (JS.decimal t =? 0); [done|by intros [_ ?]%num_Num]. }
    destruct (_ && JS.test_digits t); [by intros [_ ?]%num_Num|].
    by destruct (JS.startsNumericLiteral c).
Qed.

Lemma test_digits_nonempty s :
  JS.test_digits s = true -> JS.strictEq s "" = false.
Proof.
  unfold JS.test_digits, JS.strictEq. by intros [?%negb_true_iff _]%andb_true_iff.
Qed.

(** A digit code on a variant whose number is not a number: the item
    shows the code NaN. *)
Lemma lureCode_NaN lure info s :
  Extension.companyId info = Some s -> JS.test_digits s = true ->
  toNumber (LureSearchProvider.number lure) = JS.NaN ->
  Extension.lureCode lure info = Some JS.NaN.
Proof.
  intros Hs Hd Hn. unfold Extension.lureCode.
  rewrite Hs, (test_digits_nonempty s Hd), Hd, Hn. simpl.
  by destruct (JS.stringToNumber s).
Qed.

(** The code of a digit companyId on a numbered variant, inside the range
    where the arithmetic of doubles is that of the integers. *)
Lemma lureCode_digits lure info s n :
  Extension.companyId info = Some s -> JS.test_digits s = true ->
  toNumber (LureSearchProvider.number lure) = JS.Num n ->
  JS.isSafeInteger (JS.decimal s) = true ->
  JS.isSafeInteger (n / 100 * 100) = true ->
  JS.isSafeInteger (n / 100 * 100 + JS.decimal s) = true ->
  Extension.lureCode lure info
  = Some (JS.Num (n / 100 * 100 + JS.decimal s)).
Proof.
  intros Hs Hd Hn Hcode Hbase Hsum. unfold Extension.lureCode.
  rewrite Hs, (test_digits_nonempty s Hd), Hd, Hn,
    (stringToNumber_digits s Hd Hcode).
  pose proof (toNumber_safe _ _ Hn) as Hsafe.
  assert (JS.isSafeInteger (n / 100) = true) as Hq.
  { unfold JS.isSafeInteger in *.
    apply andb_true_iff in Hsafe as [?%Z.leb_le ?%Z.leb_le].
    apply andb_true_iff. split; apply Z.leb_le.
    - apply Z.div_le_lower_bound; lia.
    - apply Z.div_le_upper_bound; lia. }
  simpl. unfold JS.floorDiv, JS.mul, JS.add.
  rewrite Hsafe. simpl. rewrite Hq. simpl.
  rewrite (num_safe _ Hbase), Hbase, Hcode. simpl.
  by rewrite (num_safe _ Hsum).
Qed.

End LureCode.

(** C7, on the code. A variant numbered "X100", whose number has no
    numeric value, and a colour with the digit code "12": the item carries
    a lure code, and the code is NaN. *)
Theorem lure_code_of_unnumbered_variant :
  toNumber (LureSearchProvider.number Sample.wiggler) = JS.NaN /\
  Extension.companyId (Extension.getColorInfo Sample.colorLookup "ccbc-12")
  = Some "12" /\
  Extension.derivedCode
    (Extension.colorItem Sample.colorLookup Sample.wiggler "ccbc-12")
  = Some JS.NaN.
Proof.
  split; [reflexivity|]. split; [reflexivity|].
  by apply (lureCode_NaN _ _ "12").
Qed.

(** ** The colour lookup of the extension *)

Section ColorLookup.

Lemma find_snoc {A} (g : A -> bool) (l : list A) (x : A) :
  List.find g (l ++ [x])
  = match List.find g l with
    | Some y => Some y
    | None => if g x then Some x else None
    end.
Proof.
  induction l as [|y l IH]; simpl; [done|].
  by destruct (g y).
Qed.

(** After the updates for [colors], a key holds the last colour listed
    with that id, or what it held before. *)
Lemma lookup_after_updates (colors : list Database.Color.t)
    (m : gmap string Extension.ColorInfo) (k : string) :
  foldl (fun m color =>
           <[Database.Color.id color := Extension.infoOf color]> m)
        m colors !! k
  = match List.find
            (fun color => JS.strictEq (Database.Color.id color) k)
            (rev colors) with
    | Some color => Some (Extension.infoOf color)
    | None => m !! k
    end.
Proof.
  revert m. induction colors as [|x colors IH]; intros m; simpl; [done|].
  rewrite IH, find_snoc.
  destruct (List.find _ (rev colors)); [done|].
  unfold JS.strictEq. case_bool_decide as E.
  - by rewrite E, lookup_insert_eq.
  - by rewrite lookup_insert_ne.
Qed.

(** What [getColorInfo] answers on the lookup that [activate] builds. *)
Lemma getColorInfo_retained (src : source) (c : string) :
  Extension.getColorInfo (Extension.buildColorLookup src ∅) c
  = match Extension.retainedColor src c with
    | Some color => Extension.infoOf color
    | None =>
        {| Extension.name := c;
           Extension.pre1925Id := None;
           Extension.companyId := None |}
    end.
Proof.
  unfold Extension.getColorInfo, Extension.buildColorLookup,
    Extension.retainedColor.
  destruct src as [| |d]; try by rewrite lookup_empty.
  destruct (Extension.creekChubColors d) as [colors|]; simpl;
    [|by rewrite lookup_empty].
  rewrite lookup_after_updates.
  destruct (List.find _ (rev colors)); [done|by rewrite lookup_empty].
Qed.

(** C6, as the code has it. The name shown for a colour id is the name
    of the colour with that id among the colours of the producer keyed
    'creek-chub' in the document the lookup was built from (the last one
    listed, should the id repeat), and the raw id in every other case;
    the resolution is a total function of any source and any id. *)
Theorem shown_name_resolution (src : source)
    (lure : LureSearchProvider.LureData) (c : string) :
  Extension.shownName
    (Extension.colorItem (Extension.buildColorLookup src ∅) lure c)
  = from_option Database.Color.name c (Extension.retainedColor src c).
Proof.
  unfold Extension.colorItem. simpl. rewrite getColorInfo_retained.
  by destruct (Extension.retainedColor src c).
Qed.

End ColorLookup.

(** C3, as the code has it. For every colour lookup and referenced colour
    id whose entry in the lookup has a companyId made of decimal digits (at
    least one), and a variant whose number coerces to the integer n, the
    derived lure code is floor(n / 100) * 100 plus the decimal value of the
    companyId, provided that value, floor(n / 100) * 100 and the sum are
    safe integers (700 and "12" give 712). No code is derived when the
    entry has no companyId or one with a character other than a digit
    ("Y12"), nor when the lookup has no entry for the id, which is so for
    every id that the producer keyed 'creek-chub' does not list in the
    document the lookup was built from. *)
Theorem derived_lure_code (colorLookup : gmap string Extension.ColorInfo)
    (src : source) (lure : LureSearchProvider.LureData) (c s : string)
    (n : Z) :
  let info := Extension.getColorInfo colorLookup c in
  let code := Extension.derivedCode (Extension.colorItem colorLookup lure c) in
  (Extension.companyId info = Some s -> JS.test_digits s = true ->
   toNumber (LureSearchProvider.number lure) = JS.Num n ->
   JS.isSafeInteger (JS.decimal s) = true ->
   JS.isSafeInteger (n / 100 * 100) = true ->
   JS.isSafeInteger (n / 100 * 100 + JS.decimal s) = true ->
   JS.stringToNumber s = JS.Num (JS.decimal s) /\
   code = Some (JS.Num (n / 100 * 100 + JS.decimal s))) /\
  (Extension.companyId info = None -> code = None) /\
  (Extension.companyId info = Some s -> JS.test_digits s = false ->
   code = None) /\
  (colorLookup !! c = None -> code = None) /\
  (Extension.retainedColor src c = None ->
   Extension.derivedCode
     (Extension.colorItem (Extension.buildColorLookup src ∅) lure c)
   = None).
Proof.
  simpl. split; [|split; [|split; [|split]]].
  - intros Hs Hd Hn Hcode Hbase Hsum.
    split; [by apply stringToNumber_digits|by apply lureCode_digits].
  - unfold Extension.lureCode. by intros ->.
  - unfold Extension.lureCode. intros -> ->. by rewrite andb_false_r.
  - unfold Extension.getColorInfo. by intros ->.
  - intros E. by rewrite getColorInfo_retained, E.
Qed.

Lemma derived_lure_code_witness :
  Extension.companyId (Extension.getColorInfo Sample.colorLookup "ccbc-12")
  = Some "12" /\
  JS.test_digits "12" = true /\
  toNumber (LureSearchProvider.number Sample.pikie) = JS.Num 700 /\
  JS.isSafeInteger (JS.decimal "12") = true /\
  JS.isSafeInteger (700 / 100 * 100) = true /\
  JS.isSafeInteger (700 / 100 * 100 + JS.decimal "12") = true /\
  Extension.derivedCode
    (Extension.colorItem Sample.colorLookup Sample.pikie "ccbc-12")
  = Some (JS.Num 712) /\
  Extension.companyId (Extension.getColorInfo Sample.colorLookup "ccbc-y12")
  = Some "Y12" /\
  JS.test_digits "Y12" = false /\
  Extension.derivedCode
    (Extension.colorItem Sample.colorLookup Sample.pikie "ccbc-y12")
  = None /\
  Extension.retainedColor (Parsed Sample.plain) "hed-12" = None /\
  Extension.derivedCode
    (Extension.colorItem (Extension.buildColorLookup (Parsed Sample.plain) ∅)
       Sample2.zaragossa "hed-12")
  = None.
Proof.
  destruct (derived_lure_code Sample.colorLookup (Parsed Sample.plain)
              Sample.pikie "ccbc-12" "12" 700) as (Hcode & _).
  destruct Hcode as [_ Hcode]; [reflexivity..|].
  destruct (derived_lure_code Sample.colorLookup (Parsed Sample.plain)
              Sample.pikie "ccbc-y12" "Y12" 0) as (_ & _ & Hnone & _).
  specialize (Hnone eq_refl eq_refl).
  destruct (derived_lure_code Sample.colorLookup (Parsed Sample.plain)
              Sample2.zaragossa "hed-12" "" 0) as (_ & _ & _ & _ & Hother).
  specialize (Hother eq_refl).
  do 6 (split; [reflexivity|]). split; [exact Hcode|].
  split; [reflexivity|]. split; [reflexivity|]. split; [exact Hnone|].
  split; [reflexivity|exact Hother].
Defined.

(** C3, counterexample. The colour "hed-12" is in the Color Index with the
    digit companyId "12", and the variant Zaragossa, numbered "700",
    lists it; yet no lure code is derived for the pair, where the claim
    gives 712: the resolver looks the id up among the colours of
    'creek-chub' only. *)
Lemma derived_code_other_producer :
  LureSearchProvider.colors Sample2.zaragossa = Some ["hed-12"] /\
  ColorSearchProvider.getById Sample.colorIndex "hed-12"
  = Some Sample.redHead /\
  ColorSearchProvider.companyId Sample.redHead = Some "12" /\
  JS.test_digits "12" = true /\
  toNumber (LureSearchProvider.number Sample2.zaragossa) = JS.Num 700 /\
  Extension.derivedCode
    (Extension.colorItem Sample.colorLookup Sample2.zaragossa "hed-12")
  = None.
Proof. repeat split; reflexivity. Qed.

(** C6, counterexample. The colour "hed-12" of producer Heddon is in the
    Color Index under the name "Red Head", yet the name shown for it is
    the raw id: the lookup holds the colours of 'creek-chub' only. *)
Lemma shown_name_other_producer :
  ColorSearchProvider.getById Sample.colorIndex "hed-12"
  = Some Sample.redHead /\
  ColorSearchProvider.name Sample.redHead = "Red Head" /\
  Extension.shownName
    (Extension.colorItem Sample.colorLookup Sample.pikie "hed-12")
  = "hed-12".
Proof. repeat split; reflexivity. Qed.

(** ** Loading and reloading the Color Index *)

Section Loading.
Context {H : JS.Collator}.

(** A source that cannot be read or parsed leaves an index that answers
    every query with the empty sequence. *)
Lemma failed_load_is_queryable (src : source) (p : ColorSearchProvider.t)
    (query : string) :
  src = Unreadable \/ src = Unparseable ->
  ColorSearchProvider.colorCache (ColorSearchProvider.reload src p) = [] /\
  ColorSearchProvider.search (ColorSearchProvider.reload src p) query
  = JS.Return [].
Proof.
  intros [-> | ->]; (split; [done|]);
    unfold ColorSearchProvider.search; simpl;
    by destruct (JS.strictEq _ "").
Qed.

(** So does a first load of a document without [manufacturers] and
    without [indexes]. *)
Lemma first_load_without_manufacturers (query : string) :
  ColorSearchProvider.search
    (ColorSearchProvider.new (Parsed Sample.emptyObject)) query
  = JS.Return [].
Proof.
  unfold ColorSearchProvider.search; simpl.
  by destruct (JS.strictEq _ "").
Qed.

(** A document without [manufacturers] leaves the cache as it was: the
    early return of [buildColorCache] comes before the cache is emptied. *)
Lemma reload_without_manufacturers (d : Database.t)
    (p : ColorSearchProvider.t) :
  Database.manufacturers d = None ->
  ColorSearchProvider.reload (Parsed d) p
  = {| ColorSearchProvider.database := Some d;
       ColorSearchProvider.colorCache := ColorSearchProvider.colorCache p |}.
Proof.
  intros E. unfold ColorSearchProvider.reload,
    ColorSearchProvider.loadDatabase, ColorSearchProvider.buildColorCache.
  simpl. by rewrite E.
Qed.

End Loading.

(** A query that names a property of Object.prototype finds an inherited,
    truthy value under [indexes.byCompanyId] and the call of its [map]
    throws. *)
Remark search_prototype_key_throws :
  @ColorSearchProvider.search codeUnitCollator Sample.indexedColorIndex
    "constructor"
  = JS.Throw JS.TypeError.
Proof. reflexivity. Qed.

(** C4, on the code. After a successful load, [reload] on a document that
    parses but has no [manufacturers] returns from [buildColorCache] before
    the cache is emptied: the index keeps the records of the previous load
    and [search] returns them. *)
Theorem reload_without_manufacturers_keeps_cache :
  let p := ColorSearchProvider.reload (Parsed Sample.emptyObject)
             Sample.colorIndex in
  ColorSearchProvider.database p = Some Sample.emptyObject /\
  ColorSearchProvider.colorCache p
  = ColorSearchProvider.colorCache Sample.colorIndex /\
  ColorSearchProvider.colorCache p <> [] /\
  @ColorSearchProvider.search codeUnitCollator p "frog"
  = JS.Return [Sample.frog12; Sample.yellowFrog].
Proof.
  cbv zeta. rewrite (reload_without_manufacturers Sample.emptyObject) by done.
  repeat split; try reflexivity. discriminate.
Qed.

(** * Further properties of the sources *)

(** ** Building the caches *)

Section Caches.

Lemma elem_of_flat_map {A B} (f : A -> list B) (l : list A) (y : B) :
  y ∈ flat_map f l <-> exists x, x ∈ l /\ y ∈ f x.
Proof.
  rewrite list_elem_of_In, in_flat_map.
  split; intros (x & Hx & Hy); exists x;
    by rewrite ?list_elem_of_In in *.
Qed.

Lemma length_of_flat_map {A B} (f : A -> list B) (l : list A) :
  length (flat_map f l) = sum_list ((fun x => length (f x)) <$> l).
Proof.
  induction l as [|x l IH]; simpl; [done|].
  by rewrite length_app, IH.
Qed.

Lemma color_cache_flat (d : Database.t) ms (p : ColorSearchProvider.t) :
  Database.manufacturers d = Some ms ->
  ColorSearchProvider.colorCache (ColorSearchProvider.reload (Parsed d) p)
  = flat_map (fun km => map (ColorSearchProvider.cacheEntry km.1 km.2)
                            (colorsOf km.2)) ms.
Proof.
  intros E. unfold ColorSearchProvider.reload,
    ColorSearchProvider.loadDatabase, ColorSearchProvider.buildColorCache.
  simpl. rewrite E. simpl. apply flat_map_ext. intros [k m]. simpl.
  unfold colorsOf. by destruct (Database.Manufacturer.colors m).
Qed.

Lemma lure_cache_flat (d : Database.t) ms (p : LureSearchProvider.t) :
  Database.manufacturers d = Some ms ->
  LureSearchProvider.lureCache (LureSearchProvider.reload (Parsed d) p)
  = flat_map (fun km => map (LureSearchProvider.cacheEntry km.1 km.2)
                            (luresOf km.2)) ms.
Proof.
  intros E. unfold LureSearchProvider.reload,
    LureSearchProvider.loadDatabase, LureSearchProvider.buildLureCache.
  simpl. rewrite E. simpl. apply flat_map_ext. intros [k m]. simpl.
  unfold luresOf. by destruct (Database.Manufacturer.lures m) as [[|]|].
Qed.

(** X1. Loading a document that has [manufacturers] makes the colour
    cache hold exactly the colours of all producers, each stamped with the
    key and the name of its producer; producers without a colour
    collection contribute nothing, and the cache is as long as the
    collections together. *)
Theorem color_cache_of_document (d : Database.t)
    (ms : list (string * Database.Manufacturer.t))
    (p : ColorSearchProvider.t) :
  Database.manufacturers d = Some ms ->
  let loaded := ColorSearchProvider.reload (Parsed d) p in
  (forall c,
     c ∈ ColorSearchProvider.colorCache loaded <->
     exists k m col,
       (k, m) ∈ ms /\ col ∈ colorsOf m /\
       c = ColorSearchProvider.cacheEntry k m col) /\
  (forall c,
     c ∈ ColorSearchProvider.colorCache loaded ->
     exists m,
       (ColorSearchProvider.manufacturerId c, m) ∈ ms /\
       ColorSearchProvider.manufacturerName c = Database.Manufacturer.name m)
  /\
  length (ColorSearchProvider.colorCache loaded)
  = sum_list ((fun km => length (colorsOf km.2)) <$> ms).
Proof.
  intros E loaded. subst loaded. rewrite (color_cache_flat d ms p E).
  assert (forall c,
            c ∈ flat_map
                  (fun km => map (ColorSearchProvider.cacheEntry km.1 km.2)
                                 (colorsOf km.2)) ms <->
            exists k m col,
              (k, m) ∈ ms /\ col ∈ colorsOf m /\
              c = ColorSearchProvider.cacheEntry k m col) as Hmem.
  { intros c. rewrite elem_of_flat_map. split.
    - intros ([k m] & Hkm & (col & -> & Hcol)%list_elem_of_fmap). eauto 6.
    - intros (k & m & col & Hkm & Hcol & ->). exists (k, m).
      split; [done|]. by apply list_elem_of_fmap_2. }
  split; [done|]. split.
  - intros c (k & m & col & Hkm & _ & ->)%Hmem. by exists m.
  - rewrite length_of_flat_map. f_equal. apply list_fmap_ext.
    intros _ [k m] _. simpl. apply length_map.
Qed.

(** X2. The same for the lure cache: exactly the lures of all producers,
    stamped with the producer's key and name; a producer whose [lures] is
    absent or empty contributes nothing. *)
Theorem lure_cache_of_document (d : Database.t)
    (ms : list (string * Database.Manufacturer.t))
    (p : LureSearchProvider.t) :
  Database.manufacturers d = Some ms ->
  let loaded := LureSearchProvider.reload (Parsed d) p in
  (forall l,
     l ∈ LureSearchProvider.lureCache loaded <->
     exists k m lure,
       (k, m) ∈ ms /\ lure ∈ luresOf m /\
       l = LureSearchProvider.cacheEntry k m lure) /\
  (forall l,
     l ∈ LureSearchProvider.lureCache loaded ->
     exists m,
       (LureSearchProvider.manufacturerId l, m) ∈ ms /\
       LureSearchProvider.manufacturerName l = Database.Manufacturer.name m)
  /\
  length (LureSearchProvider.lureCache loaded)
  = sum_list ((fun km => length (luresOf km.2)) <$> ms).
Proof.
  intros E loaded. subst loaded. rewrite (lure_cache_flat d ms p E).
  assert (forall l,
            l ∈ flat_map
                  (fun km => map (LureSearchProvider.cacheEntry km.1 km.2)
                                 (luresOf km.2)) ms <->
            exists k m lure,
              (k, m) ∈ ms /\ lure ∈ luresOf m /\
              l = LureSearchProvider.cacheEntry k m lure) as Hmem.
  { intros l. rewrite elem_of_flat_map. split.
    - intros ([k m] & Hkm & (lure & -> & Hl)%list_elem_of_fmap). eauto 6.
    - intros (k & m & lure & Hkm & Hl & ->). exists (k, m).
      split; [done|]. by apply list_elem_of_fmap_2. }
  split; [done|]. split.
  - intros l (k & m & lure & Hkm & _ & ->)%Hmem. by exists m.
  - rewrite length_of_flat_map. f_equal. apply list_fmap_ext.
    intros _ [k m] _. simpl. apply length_map.
Qed.

End Caches.

Lemma color_cache_of_document_witness :
  Database.manufacturers Sample.plain = Some [Sample.creekChub; Sample.heddon]
  /\
  (forall c,
     c ∈ ColorSearchProvider.colorCache
           (ColorSearchProvider.reload (Parsed Sample.plain)
              Sample.indexedColorIndex) ->
     exists m,
       (ColorSearchProvider.manufacturerId c, m)
       ∈ [Sample.creekChub; Sample.heddon] /\
       ColorSearchProvider.manufacturerName c = Database.Manufacturer.name m)
  /\
  length (ColorSearchProvider.colorCache
            (ColorSearchProvider.reload (Parsed Sample.plain)
               Sample.indexedColorIndex))
  = 6%nat.
Proof.
  destruct (color_cache_of_document Sample.plain
              [Sample.creekChub; Sample.heddon] Sample.indexedColorIndex
              eq_refl) as (_ & Hstamp & Hlen).
  split; [reflexivity|]. split; [exact Hstamp|exact Hlen].
Defined.

Lemma lure_cache_of_document_witness :
  Database.manufacturers Sample.plain = Some [Sample.creekChub; Sample.heddon]
  /\
  (forall l,
     l ∈ LureSearchProvider.lureCache
           (LureSearchProvider.reload (Parsed Sample.plain)
              LureSearchProvider.initial) ->
     exists m,
       (LureSearchProvider.manufacturerId l, m)
       ∈ [Sample.creekChub; Sample.heddon] /\
       LureSearchProvider.manufacturerName l = Database.Manufacturer.name m)
  /\
  length (LureSearchProvider.lureCache
            (LureSearchProvider.reload (Parsed Sample.plain)
               LureSearchProvider.initial))
  = 4%nat.
Proof.
  destruct (lure_cache_of_document Sample.plain
              [Sample.creekChub; Sample.heddon] LureSearchProvider.initial
              eq_refl) as (_ & Hstamp & Hlen).
  split; [reflexivity|]. split; [exact Hstamp|exact Hlen].
Defined.

(** ** Reloading *)

Section Reloading.
Context {H : JS.Collator}.

(** X3. Reloading twice from the same source gives the state of reloading
    once, for either provider and whatever the source and the state
    before. *)
Theorem reload_idempotent (src : source) (pc : ColorSearchProvider.t)
    (pl : LureSearchProvider.t) :
  ColorSearchProvider.reload src (ColorSearchProvider.reload src pc)
  = ColorSearchProvider.reload src pc /\
  LureSearchProvider.reload src (LureSearchProvider.reload src pl)
  = LureSearchProvider.reload src pl.
Proof.
  unfold ColorSearchProvider.reload, ColorSearchProvider.loadDatabase,
    ColorSearchProvider.buildColorCache, LureSearchProvider.reload,
    LureSearchProvider.loadDatabase, LureSearchProvider.buildLureCache.
  destruct src as [| |d]; [done..|]. simpl.
  by destruct (Database.manufacturers d).
Qed.

(** X4. A reload from a document that has [manufacturers] does not depend
    on the state before: it gives what a fresh provider built on that
    document holds. *)
Theorem reload_rebuilds_wholesale (d : Database.t)
    (pc : ColorSearchProvider.t) (pl : LureSearchProvider.t) :
  is_Some (Database.manufacturers d) ->
  ColorSearchProvider.reload (Parsed d) pc
  = ColorSearchProvider.new (Parsed d) /\
  LureSearchProvider.reload (Parsed d) pl
  = LureSearchProvider.new (Parsed d).
Proof.
  intros [ms E].
  unfold ColorSearchProvider.new, ColorSearchProvider.reload,
    ColorSearchProvider.loadDatabase, ColorSearchProvider.buildColorCache,
    LureSearchProvider.new, LureSearchProvider.reload,
    LureSearchProvider.loadDatabase, LureSearchProvider.buildLureCache.
  simpl. by rewrite E.
Qed.

(** X5. After a load whose source cannot be read or parsed, both
    providers hold no document and an empty cache, whatever they held
    before: every search returns the empty sequence and the direct
    lookups find nothing. *)
Theorem failed_load_empties (src : source) (pc : ColorSearchProvider.t)
    (pl : LureSearchProvider.t) (query : string)
    (number' : Database.lureNumber) :
  src = Unreadable \/ src = Unparseable ->
  let pc' := ColorSearchProvider.reload src pc in
  let pl' := LureSearchProvider.reload src pl in
  (ColorSearchProvider.database pc' = None /\
   ColorSearchProvider.getAllColors pc' = [] /\
   ColorSearchProvider.search pc' query = JS.Return [] /\
   ColorSearchProvider.getById pc' query = None /\
   ColorSearchProvider.getByCompanyId pc' query = []) /\
  (LureSearchProvider.database pl' = None /\
   LureSearchProvider.getAllLures pl' = [] /\
   LureSearchProvider.search pl' query = JS.Return [] /\
   LureSearchProvider.getByName pl' query = None /\
   LureSearchProvider.getByNumber pl' number' = []).
Proof.
  intros [-> | ->]; simpl;
    unfold ColorSearchProvider.search, LureSearchProvider.search; simpl;
    by destruct (JS.strictEq _ "").
Qed.

End Reloading.

Lemma reload_rebuilds_wholesale_witness :
  is_Some (Database.manufacturers Sample.plain) /\
  ColorSearchProvider.reload (Parsed Sample.plain) Sample.indexedColorIndex
  = Sample.colorIndex /\
  LureSearchProvider.reload (Parsed Sample.plain) Sample.lureIndex
  = Sample.lureIndex.
Proof.
  assert (is_Some (Database.manufacturers Sample.plain)) as Hms
    by (eexists; reflexivity).
  split; [exact Hms|].
  exact (reload_rebuilds_wholesale Sample.plain Sample.indexedColorIndex
           Sample.lureIndex Hms).
Defined.

Lemma failed_load_empties_witness :
  (Unparseable = Unreadable \/ Unparseable = Unparseable) /\
  ColorSearchProvider.getAllColors
    (ColorSearchProvider.reload Unparseable Sample.colorIndex) = [] /\
  @ColorSearchProvider.search codeUnitCollator
    (ColorSearchProvider.reload Unparseable Sample.colorIndex) "frog"
  = JS.Return [] /\
  @LureSearchProvider.search codeUnitCollator
    (LureSearchProvider.reload Unparseable Sample.lureIndex) "frog"
  = JS.Return [].
Proof.
  destruct (@failed_load_empties codeUnitCollator Unparseable
              Sample.colorIndex Sample.lureIndex "frog"
              (Database.NumberOf Sample.n700) (or_intror eq_refl))
    as ((_ & Hall & Hsearch & _) & (_ & _ & Hlure & _)).
  split; [by right|]. split; [exact Hall|]. split; [exact Hsearch|].
  exact Hlure.
Defined.

(** ** What a search returns *)

Section SearchResults.
Context {H : JS.Collator}.

Lemma includes_refl s : JS.includes s s = true.
Proof. apply includes_startsWith, startsWith_refl. Qed.

Lemma color_scan_elem p lowerQuery c :
  c ∈ ColorSearchProvider.scan p lowerQuery <->
  c ∈ ColorSearchProvider.colorCache p /\
  ColorSearchProvider.matches lowerQuery c = true.
Proof.
  unfold ColorSearchProvider.scan. rewrite <- sort_perm.
  by rewrite !list_elem_of_In, filter_In.
Qed.

Lemma lure_scan_elem p query lowerQuery l :
  l ∈ LureSearchProvider.scan p query lowerQuery <->
  l ∈ LureSearchProvider.lureCache p /\
  LureSearchProvider.matches query lowerQuery l = true.
Proof.
  unfold LureSearchProvider.scan. rewrite <- sort_perm.
  by rewrite !list_elem_of_In, filter_In.
Qed.

Lemma companyIdMatches_elem p ids c :
  c ∈ ColorSearchProvider.companyIdMatches p ids ->
  c ∈ ColorSearchProvider.colorCache p /\ ColorSearchProvider.id c ∈ ids.
Proof.
  unfold ColorSearchProvider.companyIdMatches.
  intros (i & Hi & [Hc E%bool_decide_eq_true]%find_some_elem)%list_elem_of_omap.
  by rewrite E.
Qed.

(** The ways a colour search can end. *)
Lemma color_search_cases p query :
  ColorSearchProvider.search p query = JS.Return [] /\ normalise query = ""
  \/ (exists c,
        ColorSearchProvider.search p query = JS.Return [c] /\
        ColorSearchProvider.exactMatch p (normalise query) = Some c)
  \/ (exists ids,
        ColorSearchProvider.search p query
        = JS.Return (ColorSearchProvider.companyIdMatches p ids) /\
        ColorSearchProvider.byCompanyIdEntry p query = JS.Own ids)
  \/ (ColorSearchProvider.search p query = JS.Throw JS.TypeError /\
      normalise query <> "" /\
      ColorSearchProvider.byCompanyIdEntry p query = JS.Inherited)
  \/ ColorSearchProvider.search p query
     = JS.Return (ColorSearchProvider.scan p (normalise query)).
Proof.
  unfold ColorSearchProvider.search.
  change (JS.trim (JS.toLowerCase query)) with (normalise query).
  unfold JS.strictEq. case_bool_decide as Hne; [by left|].
  destruct (ColorSearchProvider.exactMatch p (normalise query)) as [c|];
    [right; left; eauto|].
  destruct (ColorSearchProvider.byCompanyIdEntry p query) as [ids| |].
  - destruct (0 <? _); [right; right; left; eauto|by repeat right].
  - by right; right; right; left.
  - by repeat right.
Qed.

Lemma exactMatch_elem p lowerQuery c :
  ColorSearchProvider.exactMatch p lowerQuery = Some c ->
  c ∈ ColorSearchProvider.colorCache p /\
  JS.toLowerCase (ColorSearchProvider.id c) = lowerQuery.
Proof.
  unfold ColorSearchProvider.exactMatch.
  destruct (ColorSearchProvider.byIdHit p lowerQuery); [|done].
  by intros [? ?%bool_decide_eq_true]%find_some_elem.
Qed.

(** X6. A search never makes records up: whatever it returns, on either
    index, is a record of the cache. *)
Theorem search_returns_cached_records (pc : ColorSearchProvider.t)
    (pl : LureSearchProvider.t) (query : string) :
  (forall out c,
     ColorSearchProvider.search pc query = JS.Return out -> c ∈ out ->
     c ∈ ColorSearchProvider.colorCache pc) /\
  (forall out l,
     LureSearchProvider.search pl query = JS.Return out -> l ∈ out ->
     l ∈ LureSearchProvider.lureCache pl).
Proof.
  split.
  - intros out c Hs Hc.
    destruct (color_search_cases pc query)
      as [[E _]|[(x & E & Hx)|[(ids & E & _)|[[E _]|E]]]];
      rewrite E in Hs; simplify_eq.
    + by apply elem_of_nil in Hc.
    + apply list_elem_of_singleton in Hc as ->.
      by apply exactMatch_elem in Hx as [? _].
    + by apply companyIdMatches_elem in Hc as [? _].
    + by apply color_scan_elem in Hc as [? _].
  - intros out l. unfold LureSearchProvider.search.
    destruct (JS.strictEq _ ""); [by intros [= <-] ?%elem_of_nil|].
    destruct (0 <? _); intros [= <-].
    + rewrite list_elem_of_In, filter_In, <- list_elem_of_In. tauto.
    + by intros [? _]%lure_scan_elem.
Qed.

(** X7. On a provider whose document conforms to the [Database]
    interface and whose cached colours conform to [ColorData] (the
    providers of this model), a colour search throws only when the raw
    query is the name of a property of Object.prototype, the document has
    an [indexes.byCompanyId] object without an own entry for it, and the
    query is not blank. *)
Theorem search_throws_only_on_prototype_keys (p : ColorSearchProvider.t)
    (query : string) (e : JS.error) :
  ColorSearchProvider.search p query = JS.Throw e ->
  query ∈ JS.objectPrototypeKeys /\
  normalise query <> "" /\
  exists o,
    (ColorSearchProvider.database p ≫= Database.indexes)
      ≫= Database.byCompanyId = Some o /\
    o !! query = None.
Proof.
  intros Hs.
  destruct (color_search_cases p query)
    as [[E _]|[(x & E & _)|[(ids & E & _)|[(_ & Hne & Hin)|E]]]];
    try (rewrite E in Hs; discriminate).
  split; [|split; [done|]].
  - unfold ColorSearchProvider.byCompanyIdEntry, JS.get in Hin.
    destruct (_ ≫= Database.byCompanyId) as [o|]; [|done].
    destruct (o !! query); [done|]. by case_bool_decide.
  - unfold ColorSearchProvider.byCompanyIdEntry, JS.get in Hin.
    destruct (_ ≫= Database.byCompanyId) as [o|]; [|done].
    exists o. split; [done|]. by destruct (o !! query).
Qed.

(** X8. Without an [indexes.byCompanyId] object a colour search depends on
    the query only through its lower-cased, trimmed form: queries that
    differ in case or in surrounding white space get the same answer. *)
Theorem color_search_by_normal_form (p : ColorSearchProvider.t)
    (q q' : string) :
  (ColorSearchProvider.database p ≫= Database.indexes)
    ≫= Database.byCompanyId = None ->
  normalise q = normalise q' ->
  ColorSearchProvider.search p q = ColorSearchProvider.search p q'.
Proof.
  intros Hix Hn. unfold ColorSearchProvider.search,
    ColorSearchProvider.byCompanyIdEntry.
  change (JS.trim (JS.toLowerCase q)) with (normalise q).
  change (JS.trim (JS.toLowerCase q')) with (normalise q').
  by rewrite Hix, Hn.
Qed.

(** X9. Every record a search returns is there for a reason: on the
    Color Index it matches the normalised query in one of the scanned
    fields or its id is listed under the raw query by
    [indexes.byCompanyId]; on the Variant Index it matches the query in
    one of the scanned fields. *)
Theorem search_results_match (pc : ColorSearchProvider.t)
    (pl : LureSearchProvider.t) (query : string) :
  (forall out c,
     ColorSearchProvider.search pc query = JS.Return out -> c ∈ out ->
     ColorSearchProvider.matches (normalise query) c = true \/
     exists ids,
       ColorSearchProvider.byCompanyIdEntry pc query = JS.Own ids /\
       ColorSearchProvider.id c ∈ ids) /\
  (forall out l,
     LureSearchProvider.search pl query = JS.Return out -> l ∈ out ->
     LureSearchProvider.matches query (normalise query) l = true).
Proof.
  split.
  - intros out c Hs Hc.
    destruct (color_search_cases pc query)
      as [[E _]|[(x & E & Hx)|[(ids & E & Hids)|[[E _]|E]]]];
      rewrite E in Hs; simplify_eq.
    + by apply elem_of_nil in Hc.
    + apply list_elem_of_singleton in Hc as ->.
      apply exactMatch_elem in Hx as [_ Hx]. left.
      unfold ColorSearchProvider.matches. by rewrite Hx, includes_refl.
    + right. exists ids. split; [done|].
      by apply companyIdMatches_elem in Hc as [_ ?].
    + left. by apply color_scan_elem in Hc as [_ ?].
  - intros out l. unfold LureSearchProvider.search.
    change (JS.trim (JS.toLowerCase query)) with (normalise query).
    destruct (JS.strictEq _ ""); [by intros [= <-] ?%elem_of_nil|].
    destruct (0 <? _); intros [= <-].
    + rewrite list_elem_of_In, filter_In.
      intros [_ E%bool_decide_eq_true].
      unfold LureSearchProvider.matches. rewrite E, includes_refl.
      by destruct (JS.includes _ _).
    + by intros [_ ?]%lure_scan_elem.
Qed.

End SearchResults.

Lemma search_returns_cached_records_witness :
  @ColorSearchProvider.search codeUnitCollator Sample.indexedColorIndex "12"
  = JS.Return [Sample.frog12; Sample.redHead] /\
  Sample.redHead ∈ [Sample.frog12; Sample.redHead] /\
  Sample.redHead ∈ ColorSearchProvider.colorCache Sample.indexedColorIndex /\
  @LureSearchProvider.search codeUnitCollator Sample.lureIndex "700"
  = JS.Return [Sample.pikie; Sample2.zaragossa] /\
  Sample2.zaragossa ∈ [Sample.pikie; Sample2.zaragossa] /\
  Sample2.zaragossa ∈ LureSearchProvider.lureCache Sample.lureIndex.
Proof.
  destruct (@search_returns_cached_records codeUnitCollator
              Sample.indexedColorIndex Sample.lureIndex "12") as [Hc _].
  destruct (@search_returns_cached_records codeUnitCollator
              Sample.indexedColorIndex Sample.lureIndex "700") as [_ Hl].
  assert (Sample.redHead ∈ [Sample.frog12; Sample.redHead]) as Hin
    by (apply list_elem_of_In; simpl; auto).
  assert (Sample2.zaragossa ∈ [Sample.pikie; Sample2.zaragossa]) as Hin'
    by (apply list_elem_of_In; simpl; auto).
  split; [reflexivity|]. split; [exact Hin|].
  split; [exact (Hc _ _ eq_refl Hin)|].
  split; [reflexivity|]. split; [exact Hin'|].
  exact (Hl _ _ eq_refl Hin').
Defined.

Lemma search_throws_only_on_prototype_keys_witness :
  @ColorSearchProvider.search codeUnitCollator Sample.indexedColorIndex
    "constructor" = JS.Throw JS.TypeError /\
  "constructor" ∈ JS.objectPrototypeKeys /\
  normalise "constructor" <> "" /\
  exists o,
    (ColorSearchProvider.database Sample.indexedColorIndex
       ≫= Database.indexes) ≫= Database.byCompanyId = Some o /\
    o !! "constructor" = None.
Proof.
  split; [reflexivity|].
  exact (@search_throws_only_on_prototype_keys codeUnitCollator
           Sample.indexedColorIndex "constructor" JS.TypeError eq_refl).
Defined.

Lemma color_search_by_normal_form_witness :
  (ColorSearchProvider.database Sample.colorIndex ≫= Database.indexes)
    ≫= Database.byCompanyId = None /\
  normalise "  FROG " = normalise "frog" /\
  @ColorSearchProvider.search codeUnitCollator Sample.colorIndex "  FROG "
  = @ColorSearchProvider.search codeUnitCollator Sample.colorIndex "frog".
Proof.
  split; [reflexivity|]. split; [reflexivity|].
  exact (@color_search_by_normal_form codeUnitCollator Sample.colorIndex
           "  FROG " "frog" eq_refl eq_refl).
Defined.

Lemma search_results_match_witness :
  @ColorSearchProvider.search codeUnitCollator Sample.colorIndex "pikie"
  = JS.Return [Sample.scale; Sample.natural] /\
  Sample.scale ∈ [Sample.scale; Sample.natural] /\
  (ColorSearchProvider.matches (normalise "pikie") Sample.scale = true \/
   exists ids,
     ColorSearchProvider.byCompanyIdEntry Sample.colorIndex "pikie"
     = JS.Own ids /\
     ColorSearchProvider.id Sample.scale ∈ ids) /\
  @LureSearchProvider.search codeUnitCollator Sample.lureIndex "700"
  = JS.Return [Sample.pikie; Sample2.zaragossa] /\
  Sample.pikie ∈ [Sample.pikie; Sample2.zaragossa] /\
  LureSearchProvider.matches "700" (normalise "700") Sample.pikie = true.
Proof.
  destruct (@search_results_match codeUnitCollator Sample.colorIndex
              Sample.lureIndex "pikie") as [Hc _].
  destruct (@search_results_match codeUnitCollator Sample.colorIndex
              Sample.lureIndex "700") as [_ Hl].
  assert (Sample.scale ∈ [Sample.scale; Sample.natural]) as Hin
    by (apply list_elem_of_In; simpl; auto).
  assert (Sample.pikie ∈ [Sample.pikie; Sample2.zaragossa]) as Hin'
    by (apply list_elem_of_In; simpl; auto).
  split; [reflexivity|]. split; [exact Hin|].
  split; [exact (Hc _ _ eq_refl Hin)|].
  split; [reflexivity|]. split; [exact Hin'|].
  exact (Hl _ _ eq_refl Hin').
Defined.

(** ** Direct lookups *)

Section DirectLookups.
Context {H : JS.Collator}.

(** X10. On a freshly loaded document whose colour ids are all distinct,
    [getById] with the id of any colour of any producer returns that
    colour, stamped with its producer's key and name. *)
Theorem getById_after_load (d : Database.t)
    (ms : list (string * Database.Manufacturer.t)) (k : string)
    (m : Database.Manufacturer.t) (col : Database.Color.t) :
  Database.manufacturers d = Some ms ->
  NoDup (ColorSearchProvider.id
           <$> ColorSearchProvider.colorCache
                 (ColorSearchProvider.new (Parsed d))) ->
  (k, m) ∈ ms ->
  col ∈ colorsOf m ->
  ColorSearchProvider.getById (ColorSearchProvider.new (Parsed d))
    (Database.Color.id col)
  = Some (ColorSearchProvider.cacheEntry k m col).
Proof.
  intros E Hids Hkm Hcol. unfold ColorSearchProvider.getById.
  apply (find_unique ColorSearchProvider.id); auto.
  - unfold ColorSearchProvider.new in *.
    change (ColorSearchProvider.loadDatabase (Parsed d)
              ColorSearchProvider.initial)
      with (ColorSearchProvider.reload (Parsed d)
              ColorSearchProvider.initial).
    rewrite (color_cache_flat d ms _ E), elem_of_flat_map.
    exists (k, m). split; [done|]. by apply list_elem_of_fmap_2.
  - by apply bool_decide_eq_true_2.
  - by intros x _ ?%bool_decide_eq_true.
Qed.

(** X11. On the Variant Index, a query that is not blank and is, as
    typed, the string form of the number of some cached variant returns
    exactly what [getByNumber] returns for that text: all variants with
    that number, in cache order, unranked. *)
Theorem lure_search_by_number (p : LureSearchProvider.t) (query : string) :
  normalise query <> "" ->
  LureSearchProvider.getByNumber p (Database.StringOf query) <> [] ->
  LureSearchProvider.search p query
  = JS.Return (LureSearchProvider.getByNumber p (Database.StringOf query)).
Proof.
  intros Hne Hsome. unfold LureSearchProvider.search.
  change (JS.trim (JS.toLowerCase query)) with (normalise query).
  rewrite (nonempty_strictEq _ Hne).
  unfold LureSearchProvider.getByNumber in *. simpl in *.
  by destruct (List.filter _ _).
Qed.

(** X12. [getByName] ignores case: for a name that equals, lower-cased,
    the lower-cased name of a cached variant, it returns the first cached
    variant whose lower-cased name is the lower-cased argument, which is
    that variant when the lower-cased names of the cache are distinct. *)
Theorem getByName_ignores_case (p : LureSearchProvider.t)
    (l : LureSearchProvider.LureData) (name' : string) :
  l ∈ LureSearchProvider.lureCache p ->
  JS.toLowerCase name' = JS.toLowerCase (LureSearchProvider.name l) ->
  exists l',
    LureSearchProvider.getByName p name' = Some l' /\
    firstWith
      (fun x => JS.strictEq (JS.toLowerCase (LureSearchProvider.name x))
                            (JS.toLowerCase name'))
      (LureSearchProvider.lureCache p) l' /\
    l' ∈ LureSearchProvider.lureCache p /\
    JS.toLowerCase (LureSearchProvider.name l') = JS.toLowerCase name' /\
    (NoDup ((fun x => JS.toLowerCase (LureSearchProvider.name x))
              <$> LureSearchProvider.lureCache p) ->
     l' = l).
Proof.
  intros Hl Hn. unfold LureSearchProvider.getByName.
  destruct (List.find _ _) as [x|] eqn:E.
  - pose proof (proj1 (find_firstWith _ _ _) E) as Hfirst.
    apply find_some_elem in E as [Hx Ex%bool_decide_eq_true].
    exists x. repeat split; [done..|].
    intros Hnames.
    apply (key_inj (fun x => JS.toLowerCase (LureSearchProvider.name x))
                   (LureSearchProvider.lureCache p)); auto.
    congruence.
  - apply (find_none_elem _ _ l) in E; [|done].
    apply bool_decide_eq_false in E. by destruct E.
Qed.

End DirectLookups.

Lemma getById_after_load_witness :
  Database.manufacturers Sample.plain = Some [Sample.creekChub; Sample.heddon]
  /\
  NoDup (ColorSearchProvider.id
           <$> ColorSearchProvider.colorCache
                 (ColorSearchProvider.new (Parsed Sample.plain))) /\
  Sample.heddon ∈ [Sample.creekChub; Sample.heddon] /\
  Sample.color "hed-12" "Red Head" (Some "12") ∈ colorsOf Sample.heddon.2 /\
  ColorSearchProvider.getById (ColorSearchProvider.new (Parsed Sample.plain))
    "hed-12"
  = Some Sample.redHead.
Proof.
  assert (NoDup (ColorSearchProvider.id
                   <$> ColorSearchProvider.colorCache
                         (ColorSearchProvider.new (Parsed Sample.plain))))
    as Hids by (apply (bool_decide_unpack _); vm_compute; exact I).
  assert (Sample.heddon ∈ [Sample.creekChub; Sample.heddon]) as Hkm
    by (apply list_elem_of_In; simpl; auto).
  assert (Sample.color "hed-12" "Red Head" (Some "12")
          ∈ colorsOf Sample.heddon.2) as Hcol
    by (apply list_elem_of_In; simpl; auto).
  split; [reflexivity|]. split; [exact Hids|]. split; [exact Hkm|].
  split; [exact Hcol|].
  exact (getById_after_load Sample.plain [Sample.creekChub; Sample.heddon]
           "heddon" Sample.heddon.2 _ eq_refl Hids Hkm Hcol).
Defined.

Lemma lure_search_by_number_witness :
  normalise "700" <> "" /\
  LureSearchProvider.getByNumber Sample.lureIndex (Database.StringOf "700")
  <> [] /\
  @LureSearchProvider.search codeUnitCollator Sample.lureIndex "700"
  = JS.Return
      (LureSearchProvider.getByNumber Sample.lureIndex
         (Database.StringOf "700")).
Proof.
  assert (normalise "700" <> "") as Hne by discriminate.
  assert (LureSearchProvider.getByNumber Sample.lureIndex
            (Database.StringOf "700") <> []) as Hsome by discriminate.
  split; [exact Hne|]. split; [exact Hsome|].
  exact (@lure_search_by_number codeUnitCollator Sample.lureIndex "700"
           Hne Hsome).
Defined.

Lemma getByName_ignores_case_witness :
  Sample.pikie ∈ LureSearchProvider.lureCache Sample.lureIndex /\
  JS.toLowerCase "PIKIE minnow"
  = JS.toLowerCase (LureSearchProvider.name Sample.pikie) /\
  exists l',
    LureSearchProvider.getByName Sample.lureIndex "PIKIE minnow" = Some l' /\
    firstWith
      (fun x => JS.strictEq (JS.toLowerCase (LureSearchProvider.name x))
                            (JS.toLowerCase "PIKIE minnow"))
      (LureSearchProvider.lureCache Sample.lureIndex) l' /\
    l' ∈ LureSearchProvider.lureCache Sample.lureIndex /\
    JS.toLowerCase (LureSearchProvider.name l')
    = JS.toLowerCase "PIKIE minnow" /\
    (NoDup ((fun x => JS.toLowerCase (LureSearchProvider.name x))
              <$> LureSearchProvider.lureCache Sample.lureIndex) ->
     l' = Sample.pikie).
Proof.
  assert (Sample.pikie ∈ LureSearchProvider.lureCache Sample.lureIndex)
    as Hl by (apply list_elem_of_In; vm_compute; auto).
  split; [exact Hl|]. split; [reflexivity|].
  exact (getByName_ignores_case Sample.lureIndex Sample.pikie "PIKIE minnow"
           Hl eq_refl).
Defined.

(** ** The colour lookup and the legacy codes *)

Section Lookups.

Lemma lookup_foldl_pairs (pairs : list (string * Z)) (m : gmap string Z)
    (k : string) :
  foldl (fun m' '(colorId, code) => <[colorId := code]> m') m pairs !! k
  = match List.find (fun kv => JS.strictEq kv.1 k) (rev pairs) with
    | Some kv => Some kv.2
    | None => m !! k
    end.
Proof.
  revert m. induction pairs as [|[i z] pairs IH]; intros m; simpl; [done|].
  rewrite IH, find_snoc.
  destruct (List.find _ (rev pairs)); [done|]. simpl.
  unfold JS.strictEq. case_bool_decide as E.
  - by rewrite E, lookup_insert_eq.
  - by rewrite lookup_insert_ne.
Qed.

Lemma foldl_items {A B} (g : B -> A -> B) (items : list (list A)) (b : B) :
  foldl (fun m item => foldl g m item) b items = foldl g b (concat items).
Proof.
  revert b. induction items as [|x items IH]; intros b; simpl; [done|].
  by rewrite IH, foldl_app.
Qed.

(** X13. The legacy code shown for a colour id comes from the variant's
    own [pre1925codes] alone: it is the code of the last pair with that id,
    items taken in order, and there is none when no pair has the id; the
    colour lookup plays no part in it. *)
Theorem legacy_code_last_pair (colorLookup : gmap string Extension.ColorInfo)
    (lure : LureSearchProvider.LureData) (c : string) :
  Extension.legacyCode (Extension.colorItem colorLookup lure c)
  = (fun kv => kv.2)
      <$> List.find (fun kv => JS.strictEq kv.1 c) (rev (legacyPairs lure)).
Proof.
  unfold Extension.colorItem, Extension.pre1925Map, legacyPairs. simpl.
  destruct (LureSearchProvider.pre1925codes lure) as [codes|]; simpl;
    [|by rewrite lookup_empty].
  rewrite (foldl_items
             (fun (m' : gmap string Z) '(colorId, code) =>
                <[colorId := code]> m')).
  rewrite lookup_foldl_pairs.
  destruct (List.find _ _); [done|by rewrite lookup_empty].
Qed.

(** X14. [buildColorLookup] only adds to the module-level map: under an
    id that the producer keyed 'creek-chub' lists it puts the last colour
    listed with that id, and every other key keeps what it held, also
    when the source cannot be read or parsed. *)
Theorem buildColorLookup_merges (src : source)
    (colorLookup : gmap string Extension.ColorInfo) (k : string) :
  Extension.buildColorLookup src colorLookup !! k
  = match Extension.retainedColor src k with
    | Some color => Some (Extension.infoOf color)
    | None => colorLookup !! k
    end.
Proof.
  unfold Extension.buildColorLookup, Extension.retainedColor.
  destruct src as [| |d]; [done..|].
  destruct (Extension.creekChubColors d) as [colors|]; simpl; [|done].
  apply lookup_after_updates.
Qed.

End Lookups.

(** ** Numbers and lure codes *)

Section Numbers.

Lemma digitValue_digit c :
  JS.isDigit c = true -> 0 <= JS.digitValue c < 10.
Proof.
  unfold JS.isDigit, JS.digitValue.
  intros [?%N.leb_le ?%N.leb_le]%andb_true_iff. lia.
Qed.

Lemma decimalFrom_nonneg s acc :
  JS.allDigits s = true -> 0 <= acc -> 0 <= JS.decimalFrom acc s.
Proof.
  revert acc. induction s as [|c s IH]; intros acc; simpl; [done|].
  intros [Hc Hs]%andb_true_iff Hacc. apply IH; [done|].
  pose proof (digitValue_digit c Hc). lia.
Qed.

Lemma decimalFrom_shift s acc :
  JS.decimalFrom acc s
  = acc * 10 ^ Z.of_nat (String.length s) + JS.decimalFrom 0 s.
Proof.
  revert acc. induction s as [|c s IH]; intros acc; simpl String.length;
    cbn [JS.decimalFrom]; [simpl; lia|].
  rewrite (IH (10 * acc + JS.digitValue c)), (IH (10 * 0 + JS.digitValue c)).
  rewrite Nat2Z.inj_succ, Z.pow_succ_r by lia. ring.
Qed.

Lemma pretty_N_char_digit d :
  (d < 10)%N ->
  JS.isDigit (pretty_N_char d) = true /\
  JS.digitValue (pretty_N_char d) = Z.of_N d.
Proof.
  intros Hd.
  assert (d = 0 \/ d = 1 \/ d = 2 \/ d = 3 \/ d = 4 \/ d = 5 \/ d = 6
          \/ d = 7 \/ d = 8 \/ d = 9)%N as Hcases by lia.
  by repeat (destruct Hcases as [->|Hcases]); [..|subst d].
Qed.

(** The digits that [pretty] writes in front of a digit string. *)
Lemma pretty_N_go_digits (x : N) (t : string) :
  JS.allDigits t = true ->
  JS.allDigits (pretty_N_go x t) = true /\
  JS.decimalFrom 0 (pretty_N_go x t)
  = Z.of_N x * 10 ^ Z.of_nat (String.length t) + JS.decimalFrom 0 t.
Proof.
  revert t. induction (N.lt_wf_0 x) as [x _ IH]. intros t Ht.
  destruct (decide (x = 0)%N) as [->|Hx].
  { rewrite pretty_N_go_0. split; [done|]. lia. }
  rewrite pretty_N_go_step by lia.
  assert (x `mod` 10 < 10)%N as Hd by (apply N.mod_lt; lia).
  destruct (pretty_N_char_digit _ Hd) as [Hc Hv].
  destruct (IH (x `div` 10)%N) with
    (t := String (pretty_N_char (x `mod` 10)) t) as [Hall Hdec].
  - apply N.div_lt; lia.
  - simpl. by rewrite Hc, Ht.
  - split; [done|]. rewrite Hdec. cbn [JS.decimalFrom String.length].
    rewrite (decimalFrom_shift t (10 * 0 + _)), Hv.
    rewrite Nat2Z.inj_succ, Z.pow_succ_r by lia.
    pose proof (N.div_mod x 10 ltac:(lia)) as Hdm.
    assert (Z.of_N x = 10 * Z.of_N (x `div` 10) + Z.of_N (x `mod` 10)) as ->
      by lia.
    ring.
Qed.

Lemma pretty_positive_digits (x : positive) :
  JS.test_digits (pretty (Npos x)) = true /\
  JS.decimal (pretty (Npos x)) = Zpos x.
Proof.
  unfold pretty, pretty_N. rewrite decide_False by done.
  destruct (pretty_N_go_digits (Npos x) "" eq_refl) as [Hall Hdec].
  simpl in Hdec. unfold JS.decimal. rewrite Hdec.
  split; [|lia]. unfold JS.test_digits. rewrite Hall, andb_true_r.
  apply negb_true_iff, bool_decide_eq_false_2. intros E.
  rewrite E in Hdec. simpl in Hdec. lia.
Qed.

(** [Number(String(z))] is [z] for a safe integer [z]. *)
Lemma stringToNumber_pretty (z : Z) :
  JS.isSafeInteger z = true -> JS.stringToNumber (pretty z) = JS.Num z.
Proof.
  intros Hsafe. destruct z as [|x|x].
  - reflexivity.
  - destruct (pretty_positive_digits x) as [Hd Hv].
    change (pretty (Zpos x)) with (pretty (Npos x)).
    rewrite (stringToNumber_digits _ Hd); rewrite Hv; done.
  - destruct (pretty_positive_digits x) as [Hd Hv].
    change (pretty (Zneg x)) with (String "-" (pretty (Npos x))).
    apply andb_true_iff in Hd as Hd'. destruct Hd' as [_ Hall].
    unfold JS.stringToNumber, JS.trim.
    rewrite (trimStart_fixed (String "-" _)) by done.
    cbn [JS.trimEnd]. rewrite (trimEnd_digits _ Hall).
    change (JS.isWhiteSpace "-") with false. cbn [andb].
    cbn [JS.allDigits]. change (JS.isDigit "-") with false. cbn [andb].
    change (JS.code "-" =? 45)%N with true. cbn [andb].
    rewrite Hd, Hv. by apply num_safe.
Qed.

End Numbers.

(** ** The Variant Index: getByNumber *)

(** The decimal text of a safe integer is recognised as such. *)
Lemma safeIntegerText_pretty (z : Z) :
  JS.isSafeInteger z = true -> JS.safeIntegerText (pretty z) = true.
Proof.
  intros Hz. unfold JS.safeIntegerText.
  rewrite (stringToNumber_pretty _ Hz). by apply bool_decide_eq_true_2.
Qed.

(** C9. For every argument, a number or a string, [getByNumber] returns
    exactly the cached variants whose number has the string form of the
    argument, in cache order and whatever their producer; so a number and
    its string form are interchangeable as arguments, as 700 and "700"
    are. For a safe integer the variants found are those numbered with
    that very integer or with its decimal text, and no other. *)
Theorem getByNumber_string_form (p : LureSearchProvider.t)
    (number' : Database.lureNumber) (z : JS.safeInteger) :
  LureSearchProvider.getByNumber p number'
  = filter (fun l => numberToString (LureSearchProvider.number l)
                     = numberToString number')
           (LureSearchProvider.lureCache p)
  /\ LureSearchProvider.getByNumber p number'
     = LureSearchProvider.getByNumber p
         (Database.StringOf (numberToString number'))
  /\ (forall l,
        l ∈ LureSearchProvider.getByNumber p (Database.NumberOf z) <->
        l ∈ LureSearchProvider.lureCache p /\
        ((exists z', LureSearchProvider.number l = Database.NumberOf z' /\
                     JS.intValue z' = JS.intValue z) \/
         LureSearchProvider.number l
         = Database.StringOf (pretty (JS.intValue z))))
  /\ LureSearchProvider.getByNumber p (Database.NumberOf Sample.n700)
     = LureSearchProvider.getByNumber p (Database.StringOf "700")
  /\ LureSearchProvider.manufacturerId
       <$> LureSearchProvider.getByNumber Sample.lureIndex
             (Database.NumberOf Sample.n700)
     = ["creek-chub"; "heddon"].
Proof.
  assert (LureSearchProvider.getByNumber p number'
          = filter (fun l => numberToString (LureSearchProvider.number l)
                             = numberToString number')
                   (LureSearchProvider.lureCache p)) as Hfilter.
  { unfold LureSearchProvider.getByNumber, JS.strictEq.
    apply (filter_bool_decide
             (fun l => numberToString (LureSearchProvider.number l)
                       = numberToString number')). }
  split; [exact Hfilter|]. split; [reflexivity|].
  split; [|split; reflexivity].
  intros l. unfold LureSearchProvider.getByNumber.
  rewrite list_elem_of_In, filter_In, <- list_elem_of_In.
  unfold JS.strictEq. rewrite bool_decide_eq_true. simpl.
  split; intros [Hl E]; (split; [exact Hl|]).
  - destruct (LureSearchProvider.number l) as [z'|x|s]; simpl in E.
    + left. exists z'. split; [done|]. by apply (inj pretty).
    + pose proof (safeIntegerText_pretty _ (JS.intSafe z)) as Hsafe.
      rewrite <- E, (JS.textOther x) in Hsafe. done.
    + right. by rewrite E.
  - destruct E as [(z' & E1 & E2)|E]; rewrite ?E1, ?E; simpl; [|done].
    by rewrite E2.
Qed.

Lemma getByNumber_string_form_witness :
  Sample.pikie
  ∈ LureSearchProvider.getByNumber Sample.lureIndex
      (Database.NumberOf Sample.n700) /\
  Sample.pikie ∈ LureSearchProvider.lureCache Sample.lureIndex /\
  ((exists z',
      LureSearchProvider.number Sample.pikie = Database.NumberOf z' /\
      JS.intValue z' = JS.intValue Sample.n700) \/
   LureSearchProvider.number Sample.pikie
   = Database.StringOf (pretty (JS.intValue Sample.n700))).
Proof.
  destruct (getByNumber_string_form Sample.lureIndex
              (Database.NumberOf Sample.n700) Sample.n700)
    as (_ & _ & Hmem & _).
  assert (Sample.pikie
          ∈ LureSearchProvider.getByNumber Sample.lureIndex
              (Database.NumberOf Sample.n700)) as Hin
    by (apply list_elem_of_In; vm_compute; auto).
  split; [exact Hin|]. exact (proj1 (Hmem Sample.pikie) Hin).
Defined.

(** X15. With a digit companyId below 100 and a variant number n from 0
    to 2^53 - 100, the derived lure code keeps the hundreds of the
    variant's number and carries the colour code in its last two digits:
    dividing it by 100 gives what the number gives, and its remainder is
    the colour code. *)
Theorem derived_code_hundreds (colorLookup : gmap string Extension.ColorInfo)
    (lure : LureSearchProvider.LureData) (c s : string) (n : Z) :
  Extension.companyId (Extension.getColorInfo colorLookup c) = Some s ->
  JS.test_digits s = true ->
  JS.decimal s < 100 ->
  toNumber (LureSearchProvider.number lure) = JS.Num n ->
  0 <= n <= 2 ^ 53 - 100 ->
  exists k,
    Extension.derivedCode (Extension.colorItem colorLookup lure c)
    = Some (JS.Num k) /\
    k / 100 = n / 100 /\
    k mod 100 = JS.decimal s.
Proof.
  intros Hs Hd Hlt Hn Hrange. exists (n / 100 * 100 + JS.decimal s).
  assert (0 <= JS.decimal s) as Hge.
  { apply andb_true_iff in Hd as [_ Hall]. by apply decimalFrom_nonneg. }
  pose proof (Z.mul_div_le n 100 ltac:(lia)) as Hle.
  pose proof (Z.div_pos n 100 ltac:(lia) ltac:(lia)) as Hpos.
  split; [|split].
  - simpl. apply (lureCode_digits lure _ s n); auto;
      unfold JS.isSafeInteger; apply andb_true_iff; split; apply Z.leb_le;
      lia.
  - symmetry. apply (Z.div_unique _ 100 _ (JS.decimal s)); lia.
  - symmetry. apply (Z.mod_unique _ 100 (n / 100)); lia.
Qed.

Lemma derived_code_hundreds_witness :
  Extension.companyId (Extension.getColorInfo Sample.colorLookup "ccbc-12")
  = Some "12" /\
  JS.test_digits "12" = true /\
  JS.decimal "12" < 100 /\
  toNumber (LureSearchProvider.number Sample2.darter) = JS.Num 2000 /\
  0 <= 2000 <= 2 ^ 53 - 100 /\
  exists k,
    Extension.derivedCode
      (Extension.colorItem Sample.colorLookup Sample2.darter "ccbc-12")
    = Some (JS.Num k) /\
    k / 100 = 2000 / 100 /\
    k mod 100 = JS.decimal "12".
Proof.
  assert (0 <= 2000 <= 2 ^ 53 - 100) as Hrange by (split; discriminate).
  split; [reflexivity|]. split; [reflexivity|]. split; [reflexivity|].
  split; [reflexivity|]. split; [exact Hrange|].
  apply (derived_code_hundreds Sample.colorLookup Sample2.darter
           "ccbc-12" "12" 2000); [reflexivity..|exact Hrange].
Defined.

(** X16. A variant number kept as the decimal text of a safe integer is
    coerced to that integer, so a variant numbered 700 and one numbered
    "700" get the same lure code for every colour. *)
Theorem number_text_same_code (z : JS.safeInteger)
    (lure lure' : LureSearchProvider.LureData) (info : Extension.ColorInfo) :
  LureSearchProvider.number lure = Database.NumberOf z ->
  LureSearchProvider.number lure'
  = Database.StringOf (numberToString (Database.NumberOf z)) ->
  toNumber (LureSearchProvider.number lure') = JS.Num (JS.intValue z) /\
  Extension.lureCode lure' info = Extension.lureCode lure info.
Proof.
  intros E E'. unfold Extension.lureCode. rewrite E, E'. simpl.
  by rewrite (stringToNumber_pretty _ (JS.intSafe z)).
Qed.

Lemma number_text_same_code_witness :
  LureSearchProvider.number Sample.pikie = Database.NumberOf Sample.n700 /\
  LureSearchProvider.number Sample2.zaragossa
  = Database.StringOf (numberToString (Database.NumberOf Sample.n700)) /\
  toNumber (LureSearchProvider.number Sample2.zaragossa) = JS.Num 700 /\
  Extension.lureCode Sample2.zaragossa
    (Extension.getColorInfo Sample.colorLookup "ccbc-12")
  = Extension.lureCode Sample.pikie
      (Extension.getColorInfo Sample.colorLookup "ccbc-12").
Proof.
  split; [reflexivity|]. split; [reflexivity|].
  exact (number_text_same_code Sample.n700 Sample.pikie Sample2.zaragossa
           (Extension.getColorInfo Sample.colorLookup "ccbc-12")
           eq_refl eq_refl).
Defined.

(** ** Records with the same name keep their order *)

Section Stability.
Context {A : Type} (cmp : A -> A -> Z) (same : A -> bool).

(** Records of the class [same] are never placed after one another by the
    comparator. *)
Hypothesis same_tie : forall x y, same x = true -> same y = true -> cmp x y <= 0.

Lemma filter_insert_sorted x l :
  List.filter same (JS.insert_sorted cmp x l) = List.filter same (x :: l).
Proof.
  induction l as [|y l IH]; [done|].
  cbn [JS.insert_sorted].
  destruct (Z.leb_spec (cmp x y) 0) as [Hxy|Hxy]; [done|].
  cbn [List.filter] in *. rewrite IH.
  destruct (same x) eqn:Ex, (same y) eqn:Ey; try done.
  pose proof (same_tie x y Ex Ey). lia.
Qed.

Lemma filter_sort l :
  List.filter same (JS.sort cmp l) = List.filter same l.
Proof.
  induction l as [|x l IH]; [done|].
  cbn [JS.sort foldr]. fold (JS.sort cmp l).
  rewrite filter_insert_sorted. cbn [List.filter]. by rewrite IH.
Qed.

End Stability.

Section StableRanking.
Context {H : JS.Collator} {HC : ConsistentCollator H}.

Lemma localeCompare_same n : JS.localeCompare n n = 0.
Proof.
  pose proof (collator_flip n n).
  destruct (Z.sgn_spec (JS.localeCompare n n)) as [[? ?]|[[? ?]|[? ?]]]; lia.
Qed.

Lemma compareNames_same lowerQuery n : compareNames lowerQuery n n = 0.
Proof.
  unfold compareNames.
  destruct (JS.strictEq _ _), (JS.startsWith _ _); simpl;
    apply localeCompare_same.
Qed.

(** X17. The ranking is stable for equal names: among the results of the
    substring scan, on either index, the records that carry one and the
    same name come back in the order the cache has them. *)
Theorem scan_keeps_order_of_equal_names (pc : ColorSearchProvider.t)
    (qc : string) (pl : LureSearchProvider.t) (ql : string) (n : string) :
  (ColorSearchProvider.reachesScan pc qc = true ->
   exists out,
     ColorSearchProvider.search pc qc = JS.Return out /\
     List.filter (fun c => JS.strictEq (ColorSearchProvider.name c) n) out
     = List.filter (fun c => JS.strictEq (ColorSearchProvider.name c) n)
         (List.filter (ColorSearchProvider.matches (normalise qc))
                      (ColorSearchProvider.colorCache pc))) /\
  (LureSearchProvider.reachesScan pl ql = true ->
   exists out,
     LureSearchProvider.search pl ql = JS.Return out /\
     List.filter (fun l => JS.strictEq (LureSearchProvider.name l) n) out
     = List.filter (fun l => JS.strictEq (LureSearchProvider.name l) n)
         (List.filter (LureSearchProvider.matches ql (normalise ql))
                      (LureSearchProvider.lureCache pl))).
Proof.
  split; intros E; eexists;
    (split; [by first [apply color_search_scan|apply lure_search_scan]|]);
    apply filter_sort;
    intros x y Ex%bool_decide_eq_true Ey%bool_decide_eq_true;
    unfold ColorSearchProvider.compare, LureSearchProvider.compare;
    rewrite Ex, Ey, compareNames_same; lia.
Qed.

End StableRanking.

Lemma scan_keeps_order_of_equal_names_witness :
  ConsistentCollator codeUnitCollator /\
  ColorSearchProvider.reachesScan
    (Sample.withCache [Sample.greenFrog; Sample.frog12; Sample.frog]) "frog"
  = true /\
  LureSearchProvider.reachesScan Sample.lureIndex "i" = true /\
  (exists out,
     @ColorSearchProvider.search codeUnitCollator
       (Sample.withCache [Sample.greenFrog; Sample.frog12; Sample.frog])
       "frog" = JS.Return out /\
     List.filter (fun c => JS.strictEq (ColorSearchProvider.name c) "Frog") out
     = [Sample.frog12; Sample.frog]) /\
  (exists out,
     @LureSearchProvider.search codeUnitCollator Sample.lureIndex "i"
     = JS.Return out /\
     List.filter (fun l => JS.strictEq (LureSearchProvider.name l) "Wiggler")
                 out
     = [Sample.wiggler]).
Proof.
  split; [exact codeUnit_consistent|].
  split; [reflexivity|]. split; [reflexivity|].
  destruct (@scan_keeps_order_of_equal_names codeUnitCollator
              codeUnit_consistent
              (Sample.withCache [Sample.greenFrog; Sample.frog12; Sample.frog])
              "frog" Sample.lureIndex "i" "Frog") as [Hc _].
  destruct (@scan_keeps_order_of_equal_names codeUnitCollator
              codeUnit_consistent
              (Sample.withCache [Sample.greenFrog; Sample.frog12; Sample.frog])
              "frog" Sample.lureIndex "i" "Wiggler") as [_ Hl].
  split.
  - destruct (Hc eq_refl) as (out & Hs & Hf). exists out. split; [exact Hs|].
    rewrite Hf. reflexivity.
  - destruct (Hl eq_refl) as (out & Hs & Hf). exists out. split; [exact Hs|].
    rewrite Hf. reflexivity.
Defined.

(** ** From a chosen item back to its result *)

Section Accepting.
Context {H : JS.Collator}.

Lemma color_search_elem_cache p query out c :
  ColorSearchProvider.search p query = JS.Return out -> c ∈ out ->
  c ∈ ColorSearchProvider.colorCache p.
Proof.
  intros Hs Hc.
  destruct (color_search_cases p query)
    as [[E _]|[(x & E & Hx)|[(ids & E & _)|[[E _]|E]]]];
    rewrite E in Hs; simplify_eq.
  - by apply elem_of_nil in Hc.
  - apply list_elem_of_singleton in Hc as ->.
    by apply exactMatch_elem in Hx as [? _].
  - by apply companyIdMatches_elem in Hc as [? _].
  - by apply color_scan_elem in Hc as [? _].
Qed.

(** The label of a lure item gives the name back. *)
Lemma replace_file_label (n : string) :
  QuickPick.replace ("$(file) " +:+ n) "$(file) " "" = n.
Proof. destruct n; reflexivity. Qed.

(** X18. When the ids of the colour cache are distinct, choosing the
    i-th item of the list that [showColorResults] shows for a query opens
    the details of the i-th result of the search, and its copy button
    copies that result's id. *)
Theorem accept_color_item (p : ColorSearchProvider.t) (searchTerm : string)
    (items : list QuickPick.item) (i : nat) (it : QuickPick.item) :
  NoDup (ColorSearchProvider.id <$> ColorSearchProvider.colorCache p) ->
  QuickPick.showColorResults p searchTerm = JS.Return (Some items) ->
  items !! i = Some it ->
  exists results c,
    ColorSearchProvider.search p searchTerm = JS.Return results /\
    length items = length results /\
    results !! i = Some c /\
    QuickPick.acceptColor results (Some it) = Some c /\
    QuickPick.copiedColorId it
    = (if JS.strictEq (ColorSearchProvider.id c) "" then None
       else Some (ColorSearchProvider.id c)).
Proof.
  intros Hids Hshow Hit. unfold QuickPick.showColorResults in Hshow.
  destruct (ColorSearchProvider.search p searchTerm) as [results|] eqn:Hs;
    [|done].
  destruct (length results =? 0)%nat; [done|].
  injection Hshow as <-.
  change (map QuickPick.colorItemOf results)
    with (QuickPick.colorItemOf <$> results) in *.
  apply list_lookup_fmap_Some in Hit as (c & -> & Hc).
  assert (c ∈ results) as Hin by (by eapply list_elem_of_lookup_2).
  exists results, c. split; [done|]. split; [apply length_fmap|].
  split; [done|]. split.
  - simpl. destruct (List.find _ results) as [x|] eqn:E.
    + apply find_some_elem in E as [Hx Ex%bool_decide_eq_true].
      f_equal.
      apply (key_inj ColorSearchProvider.id
                     (ColorSearchProvider.colorCache p)); auto;
        by eapply color_search_elem_cache.
    + apply (find_none_elem _ _ c) in E; [|done].
      apply bool_decide_eq_false in E. by destruct E.
  - unfold QuickPick.copiedColorId. simpl.
    by destruct (JS.strictEq _ "").
Qed.

(** X19. Choosing the i-th item of the list that [showLureResults] shows
    opens the details of the first result that has the name of the i-th
    result: the i-th result itself when the names of the results are
    distinct. The copy button copies that name when it is not empty, and
    nothing when it is empty. *)
Theorem accept_lure_item (p : LureSearchProvider.t) (searchTerm : string)
    (items : list QuickPick.item) (i : nat) (it : QuickPick.item) :
  QuickPick.showLureResults p searchTerm = JS.Return (Some items) ->
  items !! i = Some it ->
  exists results r r',
    LureSearchProvider.search p searchTerm = JS.Return results /\
    results !! i = Some r /\
    QuickPick.acceptLure results (Some it) = Some r' /\
    firstWith
      (fun x => JS.strictEq (LureSearchProvider.name x)
                            (LureSearchProvider.name r))
      results r' /\
    r' ∈ results /\
    LureSearchProvider.name r' = LureSearchProvider.name r /\
    (NoDup (LureSearchProvider.name <$> results) -> r' = r) /\
    QuickPick.copiedLureName it
    = (if JS.strictEq (LureSearchProvider.name r) "" then None
       else Some (LureSearchProvider.name r)).
Proof.
  intros Hshow Hit. unfold QuickPick.showLureResults in Hshow.
  destruct (LureSearchProvider.search p searchTerm) as [results|] eqn:Hs;
    [|done].
  destruct (length results =? 0)%nat; [done|].
  injection Hshow as <-.
  change (map QuickPick.lureItemOf results)
    with (QuickPick.lureItemOf <$> results) in *.
  apply list_lookup_fmap_Some in Hit as (r & -> & Hr).
  assert (r ∈ results) as Hin by (by eapply list_elem_of_lookup_2).
  destruct (List.find
              (fun x => JS.strictEq (LureSearchProvider.name x)
                                    (LureSearchProvider.name r))
              results) as [x|] eqn:E.
  - exists results, r, x.
    unfold QuickPick.acceptLure, QuickPick.copiedLureName.
    cbn [QuickPick.label QuickPick.lureItemOf].
    rewrite replace_file_label, E.
    pose proof (proj1 (find_firstWith _ _ _) E) as Hfirst.
    apply find_some_elem in E as [Hx Ex%bool_decide_eq_true].
    repeat split; try done.
    + intros Hnames.
      by apply (key_inj LureSearchProvider.name results).
    + by destruct (JS.strictEq _ "").
  - apply (find_none_elem _ _ r) in E; [|done].
    apply bool_decide_eq_false in E. by destruct E.
Qed.

End Accepting.

Lemma accept_color_item_witness :
  NoDup (ColorSearchProvider.id
           <$> ColorSearchProvider.colorCache Sample.indexedColorIndex) /\
  @QuickPick.showColorResults codeUnitCollator Sample.indexedColorIndex "12"
  = JS.Return
      (Some [QuickPick.colorItemOf Sample.frog12;
             QuickPick.colorItemOf Sample.redHead]) /\
  [QuickPick.colorItemOf Sample.frog12; QuickPick.colorItemOf Sample.redHead]
    !! 1%nat = Some (QuickPick.colorItemOf Sample.redHead) /\
  exists results c,
    @ColorSearchProvider.search codeUnitCollator Sample.indexedColorIndex "12"
    = JS.Return results /\
    results !! 1%nat = Some c /\
    QuickPick.acceptColor results
      (Some (QuickPick.colorItemOf Sample.redHead)) = Some c.
Proof.
  assert (NoDup (ColorSearchProvider.id
                   <$> ColorSearchProvider.colorCache
                         Sample.indexedColorIndex))
    as Hids by (apply (bool_decide_unpack _); vm_compute; exact I).
  split; [exact Hids|]. split; [reflexivity|]. split; [reflexivity|].
  destruct (@accept_color_item codeUnitCollator Sample.indexedColorIndex
              "12" _ 1%nat _ Hids eq_refl eq_refl)
    as (results & c & Hs & _ & Hc & Ha & _).
  exists results, c. split; [exact Hs|]. split; [exact Hc|exact Ha].
Defined.

Lemma accept_lure_item_witness :
  @QuickPick.showLureResults codeUnitCollator Sample.lureIndex "700"
  = JS.Return
      (Some [QuickPick.lureItemOf Sample.pikie;
             QuickPick.lureItemOf Sample2.zaragossa]) /\
  [QuickPick.lureItemOf Sample.pikie; QuickPick.lureItemOf Sample2.zaragossa]
    !! 1%nat = Some (QuickPick.lureItemOf Sample2.zaragossa) /\
  exists results r r',
    @LureSearchProvider.search codeUnitCollator Sample.lureIndex "700"
    = JS.Return results /\
    results !! 1%nat = Some r /\
    QuickPick.acceptLure results
      (Some (QuickPick.lureItemOf Sample2.zaragossa)) = Some r' /\
    firstWith
      (fun x => JS.strictEq (LureSearchProvider.name x)
                            (LureSearchProvider.name r))
      results r' /\
    LureSearchProvider.name r' = LureSearchProvider.name r.
Proof.
  split; [reflexivity|]. split; [reflexivity|].
  destruct (@accept_lure_item codeUnitCollator Sample.lureIndex
              "700" _ 1%nat _ eq_refl eq_refl)
    as (results & r & r' & Hs & Hr & Ha & Hfirst & _ & Hn & _).
  exists results, r, r'. split; [exact Hs|]. split; [exact Hr|].
  split; [exact Ha|]. split; [exact Hfirst|exact Hn].
Defined.

(** ** Index entries that lead nowhere *)

Section StaleIndexes.
Context {H : JS.Collator}.

Lemma companyIdMatches_stale p ids :
  (forall i, i ∈ ids ->
             i ∉ ColorSearchProvider.id <$> ColorSearchProvider.colorCache p) ->
  ColorSearchProvider.companyIdMatches p ids = [].
Proof.
  intros Hstale. unfold ColorSearchProvider.companyIdMatches.
  induction ids as [|i ids IH]; [done|]. simpl.
  destruct (List.find _ _) as [c|] eqn:E.
  - apply find_some_elem in E as [Hc <-%bool_decide_eq_true].
    destruct (Hstale (ColorSearchProvider.id c)); [by left|].
    by apply list_elem_of_fmap_2.
  - apply IH. intros j Hj. apply Hstale. by right.
Qed.

(** X20. Entries of the [indexes] block that name no cached colour are
    passed over: when no cached id equals the normalised query in lower
    case and every id listed under the raw query is missing from the
    cache, the search answers with the ranked substring scan, as it would
    without the block. *)
Theorem search_passes_over_stale_entries (p : ColorSearchProvider.t)
    (query : string) (ids : list string) :
  normalise query <> "" ->
  (forall c, c ∈ ColorSearchProvider.colorCache p ->
             JS.toLowerCase (ColorSearchProvider.id c) <> normalise query) ->
  ColorSearchProvider.byCompanyIdEntry p query = JS.Own ids ->
  (forall i, i ∈ ids ->
             i ∉ ColorSearchProvider.id <$> ColorSearchProvider.colorCache p) ->
  ColorSearchProvider.search p query
  = JS.Return (ColorSearchProvider.scan p (normalise query)).
Proof.
  intros Hne Hid Hentry Hstale. apply color_search_scan.
  unfold ColorSearchProvider.reachesScan.
  change (JS.trim (JS.toLowerCase query)) with (normalise query).
  rewrite (nonempty_strictEq _ Hne), Hentry,
    (companyIdMatches_stale p ids Hstale).
  destruct (ColorSearchProvider.exactMatch p (normalise query)) as [c|] eqn:E;
    [|done].
  apply exactMatch_elem in E as [Hc Hlow]. by destruct (Hid c).
Qed.

End StaleIndexes.

Lemma search_passes_over_stale_entries_witness :
  normalise "frog" <> "" /\
  ColorSearchProvider.byIdHit Sample3.staleColorIndex (normalise "frog")
  = true /\
  (forall c, c ∈ ColorSearchProvider.colorCache Sample3.staleColorIndex ->
             JS.toLowerCase (ColorSearchProvider.id c) <> normalise "frog") /\
  ColorSearchProvider.byCompanyIdEntry Sample3.staleColorIndex "frog"
  = JS.Own ["old-1"; "old-2"] /\
  @ColorSearchProvider.search codeUnitCollator Sample3.staleColorIndex "frog"
  = JS.Return [Sample.frog12; Sample.yellowFrog].
Proof.
  assert (normalise "frog" <> "") as Hne by discriminate.
  assert (forall c,
            c ∈ ColorSearchProvider.colorCache Sample3.staleColorIndex ->
            JS.toLowerCase (ColorSearchProvider.id c) <> normalise "frog")
    as Hid.
  { intros c Hc%list_elem_of_In. vm_compute in Hc.
    repeat (destruct Hc as [<-|Hc]; [discriminate|]). destruct Hc. }
  assert (forall i, i ∈ ["old-1"; "old-2"] ->
            i ∉ ColorSearchProvider.id
                  <$> ColorSearchProvider.colorCache Sample3.staleColorIndex)
    as Hstale.
  { intros i Hi%list_elem_of_In Hin%list_elem_of_In.
    vm_compute in Hi, Hin.
    repeat (destruct Hi as [<-|Hi];
            [repeat (destruct Hin as [Hin|Hin]; [discriminate|]);
             destruct Hin|]).
    destruct Hi. }
  split; [exact Hne|]. split; [reflexivity|]. split; [exact Hid|].
  split; [reflexivity|].
  exact (@search_passes_over_stale_entries codeUnitCollator
           Sample3.staleColorIndex "frog" ["old-1"; "old-2"]
           Hne Hid eq_refl Hstale).
Defined.

(** ** Colours the lookup does not hold *)

(** X21. A colour id that the producer keyed 'creek-chub' does not list
    in the document is shown under its raw id and never gets a lure code,
    whatever the variant and whatever the Color Index holds for that id. *)
Theorem unresolved_color_has_no_code (src : source)
    (lure : LureSearchProvider.LureData) (c : string) :
  Extension.retainedColor src c = None ->
  Extension.shownName
    (Extension.colorItem (Extension.buildColorLookup src ∅) lure c) = c /\
  Extension.derivedCode
    (Extension.colorItem (Extension.buildColorLookup src ∅) lure c) = None.
Proof.
  intros E. unfold Extension.colorItem. simpl.
  by rewrite getColorInfo_retained, E.
Qed.

Lemma unresolved_color_has_no_code_witness :
  Extension.retainedColor (Parsed Sample.plain) "hed-12" = None /\
  ColorSearchProvider.companyId Sample.redHead = Some "12" /\
  Extension.shownName
    (Extension.colorItem (Extension.buildColorLookup (Parsed Sample.plain) ∅)
       Sample2.zaragossa "hed-12") = "hed-12" /\
  Extension.derivedCode
    (Extension.colorItem (Extension.buildColorLookup (Parsed Sample.plain) ∅)
       Sample2.zaragossa "hed-12") = None.
Proof.
  split; [reflexivity|]. split; [reflexivity|].
  exact (unresolved_color_has_no_code (Parsed Sample.plain)
           Sample2.zaragossa "hed-12" eq_refl).
Defined.

(** ** The comparator handed to the sort *)

Section ComparatorLaws.
Context {H : JS.Collator} {HC : ConsistentCollator H}.

(** X22. With a collation that is itself consistent, the comparator that
    both searches hand to [sort] is a consistent comparator: swapping the
    arguments flips the sign of the answer, and "not after" is
    transitive. *)
Theorem comparator_is_consistent (lowerQuery a b c : string) :
  Z.sgn (compareNames lowerQuery a b) = - Z.sgn (compareNames lowerQuery b a)
  /\
  (compareNames lowerQuery a b <= 0 -> compareNames lowerQuery b c <= 0 ->
   compareNames lowerQuery a c <= 0).
Proof.
  split.
  - unfold compareNames.
    destruct (JS.strictEq (JS.toLowerCase a) lowerQuery),
      (JS.strictEq (JS.toLowerCase b) lowerQuery),
      (JS.startsWith (JS.toLowerCase a) lowerQuery),
      (JS.startsWith (JS.toLowerCase b) lowerQuery);
      simpl; try done; apply collator_flip.
  - apply compareNames_trans.
Qed.

End ComparatorLaws.

Lemma comparator_is_consistent_witness :
  ConsistentCollator codeUnitCollator /\
  @compareNames codeUnitCollator "frog" "Frog" "Frog Spot" <= 0 /\
  @compareNames codeUnitCollator "frog" "Frog Spot" "Green Frog" <= 0 /\
  @compareNames codeUnitCollator "frog" "Frog" "Green Frog" <= 0 /\
  Z.sgn (@compareNames codeUnitCollator "frog" "Frog" "Frog Spot")
  = - Z.sgn (@compareNames codeUnitCollator "frog" "Frog Spot" "Frog").
Proof.
  destruct (@comparator_is_consistent codeUnitCollator codeUnit_consistent
              "frog" "Frog" "Frog Spot" "Green Frog") as [Hflip Htrans].
  split; [exact codeUnit_consistent|].
  split; [discriminate|]. split; [discriminate|].
  split; [apply Htrans; discriminate|exact Hflip].
Defined.
